(** * mtplvcap: the live-view server (src/mtp/server.go)

    A shallow embedding of the [LVServer] of package [mtp]: the device
    gateway wrappers, the live-view header decoder, the control endpoint
    and the workers' loop bodies, as functions in a small state monad whose
    state is the server record plus the trace of observable events (device
    calls, mutex operations, sleeps, log lines, ticker operations). *)

From Stdlib Require Import ZArith List String Ascii Bool Lia.
From Stdlib Require Import PrimFloat FloatOps SpecFloat Uint63.
Import ListNotations.
Open Scope string_scope.
Open Scope list_scope.
Open Scope Z_scope.

(** ** Machine integers *)

(* A Go conversion to an unsigned w-bit type keeps the low w bits. *)
Definition uint8 (z : Z) : Z := z mod 2 ^ 8.
Definition uint16 (z : Z) : Z := z mod 2 ^ 16.
Definition uint32 (z : Z) : Z := z mod 2 ^ 32.
Definition uint64 (z : Z) : Z := z mod 2 ^ 64.

(* A conversion to a signed w-bit type reads the low w bits in two's
   complement. *)
Definition int8 (z : Z) : Z := (z + 2 ^ 7) mod 2 ^ 8 - 2 ^ 7.
Definition int16 (z : Z) : Z := (z + 2 ^ 15) mod 2 ^ 16 - 2 ^ 15.
Definition int64 (z : Z) : Z := (z + 2 ^ 63) mod 2 ^ 64 - 2 ^ 63.

(* [int] is 64 bits wide on the platforms the server runs on. *)
Definition int (z : Z) : Z := int64 z.

Definition byteZ (b : Byte.byte) : Z := Z.of_N (Byte.to_N b).

(* encoding/binary, BigEndian: two bytes as an int16, one byte as an int8. *)
Definition be_int16 (hi lo : Byte.byte) : Z := int16 (Z.shiftl (byteZ hi) 8 + byteZ lo).
Definition be_int8 (b : Byte.byte) : Z := int8 (byteZ b).

(** ** Errors *)

(* The error values the server tells apart: io.EOF, a typed response-code
   error RCError (a uint16), and every other error, which is only ever
   rendered with Error(). *)
Inductive error : Type :=
| io_EOF
| RCError (code : Z)
| errorString (s : string).

Definition is_EOF (e : error) : bool :=
  match e with io_EOF => true | _ => false end.

(* err != nil && err != io.EOF *)
Definition fails_not_EOF (e : option error) : bool :=
  match e with
  | Some io_EOF => false
  | Some _ => true
  | None => false
  end.

(** ** The device gateway (external collaborator) *)

Inductive OpCode : Type :=
| OC_NIKON_DeviceReady
| OC_NIKON_StartLiveView
| OC_NIKON_EndLiveView
| OC_NIKON_AfDrive
| OC_NIKON_GetLiveViewImg.

Inductive PropCode : Type :=
| DPC_NIKON_LiveViewStatus
| DPC_NIKON_LiveViewProhibitCondition
| DPC_NIKON_RecordingMedia
| DPC_NIKON_Resolution
| DPC_ExposureIndex
| DPC_FNumber.

(* A dynamically typed property value (a Go interface{} holding a scalar). *)
Inductive DataValue : Type :=
| VInt8 (v : Z)
| VUint16 (v : Z)
| VUint64 (v : Z)
| VOther.

(* DevicePropDesc.Form: only the enum form is inspected. *)
Inductive PropDescForm : Type :=
| PropDescEnumForm (Values : list DataValue)
| PropDescOtherForm.

Module DevicePropDesc.
Record t : Type := mk { CurrentValue : DataValue; Form : PropDescForm }.
Definition zero : t := mk VOther PropDescOtherForm.
End DevicePropDesc.

Module DeviceID.
Record t : Type := mk { Manufacturer : string; Product : string; SerialNumber : string }.
Definition zero : t := mk "" "" "".
End DeviceID.

(* The payload of SetDevicePropValue: a struct of one integer field,
   serialised at the width of the field's type. *)
Inductive Payload : Type :=
| Payload8 (v : Z)
| Payload16 (v : Z)
| Payload64 (v : Z).

Inductive DevCall : Type :=
| ID
| RunTransactionWithNoParams (code : OpCode)
| RunTransaction (code : OpCode) (params : list Z)
| GetDevicePropValue (code : PropCode)
| GetDevicePropDesc (code : PropCode)
| SetDevicePropValue (code : PropCode) (payload : Payload).

(* What one gateway call hands back: the error, and whatever the call
   writes through its out-parameters (the data buffer of RunTransaction,
   the scalar of GetDevicePropValue, the descriptor of GetDevicePropDesc,
   the identity of ID). *)
Module DevReply.
Record t : Type := mk {
    err : option error;
    data : list Byte.byte;
    value : Z;
    desc : DevicePropDesc.t;
    id : DeviceID.t
  }.
Definition ok : t := mk None [] 0 DevicePropDesc.zero DeviceID.zero.
Definition fail (e : error) : t := mk (Some e) [] 0 DevicePropDesc.zero DeviceID.zero.
End DevReply.

(* A device answers a call knowing the calls made before it (the most
   recent one first). *)
Definition Device : Type := list DevCall -> DevCall -> DevReply.t.

(** ** The model catalogue entry *)

Inductive ResolutionType : Type :=
| ResolutionType8
| ResolutionType64.

Module Model.
Record t : Type := mk {
    Name : string;
    HeaderSize : Z;
    QuirkSwitchMedia : bool;
    ResolutionType_ : ResolutionType
  }.
Definition zero : t := mk "" 0 false ResolutionType8.
End Model.

(** ** What the package and its libraries declare outside server.go *)

Module Package.
Record t : Type := mk {
    (* response codes (uint16) *)
    RC_NIKON_InvalidStatus : Z;
    RC_NIKON_NotLiveView : Z;
    (* RecordingMedia constants *)
    RecordingMediaCard : Z;
    RecordingMediaSDRAM : Z;
    (* RCError.Error() *)
    RCError_Error : Z -> string;
    (* strconv.ParseFloat(s, 64) *)
    ParseFloat : string -> float * option error;
    (* strconv.FormatFloat(float64(v)/100, 'f', -1, 64) *)
    FormatFloat100 : Z -> string;
    (* a float64 to uint16 conversion whose value uint16 cannot represent:
       implementation-dependent *)
    uint16_unrepresentable : float -> Z;
    (* models.Match, models.Generic *)
    models_Match : string -> Model.t * bool;
    models_Generic : Model.t
  }.
End Package.

(** ** Payloads of the HTTP surface *)

Module ControlPayload.
Record t : Type := mk {
    AFInterval : option Z;
    AFFocusNow : option bool;
    LRFPS : option Z;
    ISO : option Z;
    FN : option string
  }.
End ControlPayload.

Module InfoPayload.
Record t : Type := mk {
    ISO : Z;
    ISOs : list Z;
    FN : string;
    FNs : list string;
    AF : Z;
    LR : Z;
    Width : Z;
    Height : Z;
    FPS : Z;
    Frame : list Byte.byte
  }.
Definition zero : t := mk 0 [] "" [] 0 0 0 0 0 [].
End InfoPayload.

(** ** Live-view frames *)

Inductive Rotation : Type := Rotation0 | RotationMinus90 | Rotation90 | Rotation180.
Inductive AF : Type := AFNotActive | AFFail | AFSuccess.

Module liveViewRaw.
Record t : Type := mk {
    LVWidth : Z;
    LVHeight : Z;
    Width : Z;
    Height : Z;
    FocusFrameWidth : Z;
    FocusFrameHeight : Z;
    FocusX : Z;
    FocusY : Z;
    Rotation : Z;
    AutoFocus : Z;
    MovieTimeRemainInt : Z;
    MovieTimeRemainFrac : Z;
    Recording : Z
  }.
End liveViewRaw.

Module LiveView.
Record t : Type := mk {
    LVWidth : Z;
    LVHeight : Z;
    Width : Z;
    Height : Z;
    FocusFrameWidth : Z;
    FocusFrameHeight : Z;
    FocusX : Z;
    FocusY : Z;
    Rotation_ : Rotation;
    AutoFocus : AF;
    Recording : bool;
    JPEG : list Byte.byte
  }.
  (* LiveView{} *)
Definition zero : t := mk 0 0 0 0 0 0 0 0 Rotation0 AFNotActive false [].
End LiveView.

(** ** The server record *)

(* A websocket connection or an MJPEG writer, by identity. *)
Definition Conn : Type := nat.

Module LVServer.
Record t : Type := mk {
    Frame : list Byte.byte;
    (* newFrameChan has capacity 1: a notification is pending or not *)
    newFrameChan : bool;
    info : InfoPayload.t;
    streamClients : list Conn;
    controlClients : list Conn;
    motionClients : list Conn;
    model : Model.t;
    (* a nil Device interface is None *)
    dev : option Device;
    dummy : bool;
    maxResolution : bool;
    afInterval : Z;
    lrFPS : Z
  }.
End LVServer.

(** ** Observable events *)

Inductive Mutex : Type :=
| mtpLock | streamLock | motionLock | controlLock | frameLock | infoLock.

Inductive Level : Type := LvDebug | LvInfo | LvWarning | LvError | LvFatal.

Inductive Arg : Type :=
| ArgInt (z : Z)
| ArgStr (s : string)
| ArgInts (zs : list Z).

Inductive Duration : Type :=
| Milliseconds (ms : Z)
(* last.Add(time.Second / time.Duration(fps)).Sub(time.Now()) *)
| UntilNextSlot (fps : Z).

Inductive Worker : Type :=
| workerLV_ | workerAF_ | frameCaptorSakura_ | workerBroadcastFrame_ | workerBroadcastInfo_.

Inductive Message : Type :=
| Base64Text (jpeg : list Byte.byte)
| InfoJSON (p : InfoPayload.t)
| RawJPEG (jpeg : list Byte.byte).

Inductive Event : Type :=
| EvLock (m : Mutex)
| EvUnlock (m : Mutex)
| EvCall (c : DevCall)
| EvSleep (d : Duration)
| EvLog (lvl : Level) (format : string) (args : list Arg)
| EvTickerStart
| EvTickerStop
| EvTickerSetInterval (d : Z)
| EvStoreAFInterval (v : Z)
| EvStoreLRFPS (v : Z)
| EvTrySendAFNow
| EvTrySendNewFrame
| EvGo (w : Worker)
| EvIncrFPS
| EvWrite (c : Conn) (m : Message)
| EvClose (c : Conn).

(** ** The monad: server state, event trace, panics *)

Inductive outcome (A : Type) : Type :=
| Ret (a : A)
| Panic (msg : string)
(* log.Fatalf ends the process *)
| Exit.
Arguments Ret {A} a.
Arguments Panic {A} msg.
Arguments Exit {A}.

(* The trace holds the most recent event first. *)
Module World.
Record t : Type := mk { srv : LVServer.t; trace : list Event }.
End World.

(* The events between two worlds of one run, in the order they happened. *)
Definition since (w w' : World.t) : list Event :=
  rev (firstn (List.length (World.trace w') - List.length (World.trace w)) (World.trace w')).


Definition M (A : Type) : Type := World.t -> outcome A * World.t.

Definition ret {A} (a : A) : M A := fun w => (Ret a, w).

Definition bind {A B} (m : M A) (k : A -> M B) : M B :=
  fun w =>
    match m w with
    | (Ret a, w') => k a w'
    | (Panic msg, w') => (Panic msg, w')
    | (Exit, w') => (Exit, w')
    end.

Declare Scope go_scope.
Delimit Scope go_scope with go.
Notation "x <- m ;; k" := (bind m (fun x => k))
  (at level 100, m at next level, right associativity) : go_scope.
Notation "m ;;; k" := (bind m (fun _ => k))
  (at level 100, right associativity) : go_scope.
Open Scope go_scope.

Definition panic {A} (msg : string) : M A := fun w => (Panic msg, w).

(* defer d; body: d runs when body returns and when it panics, not when the
   process exits. *)
Definition defer {A} (d : M unit) (body : M A) : M A :=
  fun w =>
    match body w with
    | (Exit, w1) => (Exit, w1)
    | (r, w1) =>
        match d w1 with
        | (Ret _, w2) => (r, w2)
        | (Panic msg, w2) => (Panic msg, w2)
        | (Exit, w2) => (Exit, w2)
        end
    end.

Definition emit (e : Event) : M unit :=
  fun w => (Ret tt, World.mk (World.srv w) (e :: World.trace w)).

Definition get : M LVServer.t := fun w => (Ret (World.srv w), w).

Definition modify (f : LVServer.t -> LVServer.t) : M unit :=
  fun w => (Ret tt, World.mk (f (World.srv w)) (World.trace w)).

Definition Lock (m : Mutex) : M unit := emit (EvLock m).
Definition Unlock (m : Mutex) : M unit := emit (EvUnlock m).
Definition Sleep (d : Duration) : M unit := emit (EvSleep d).
Definition logf (lvl : Level) (format : string) (args : list Arg) : M unit :=
  emit (EvLog lvl format args).
Definition Fatalf (format : string) (args : list Arg) : M unit :=
  fun w => (Exit, World.mk (World.srv w) (EvLog LvFatal format args :: World.trace w)).

(* The device calls of a trace, most recent first as the trace is. *)
Fixpoint devCalls (tr : list Event) : list DevCall :=
  match tr with
  | [] => []
  | EvCall c :: tr' => c :: devCalls tr'
  | _ :: tr' => devCalls tr'
  end.

(* A method call on s.dev: a nil interface panics. *)
Definition callDev (c : DevCall) : M DevReply.t :=
  fun w =>
    match LVServer.dev (World.srv w) with
    | None => (Panic "invalid memory address or nil pointer dereference", w)
    | Some d =>
        (Ret (d (devCalls (World.trace w)) c),
         World.mk (World.srv w) (EvCall c :: World.trace w))
    end.

(* Setters for the fields the server assigns. *)
Definition set_Frame (f : list Byte.byte) (s : LVServer.t) : LVServer.t :=
  let (_, a, b, c, d, e, g, h, i, j, k, l) := s in LVServer.mk f a b c d e g h i j k l.
Definition set_newFrameChan (x : bool) (s : LVServer.t) : LVServer.t :=
  let (a, _, b, c, d, e, g, h, i, j, k, l) := s in LVServer.mk a x b c d e g h i j k l.
Definition set_info (x : InfoPayload.t) (s : LVServer.t) : LVServer.t :=
  let (a, b, _, c, d, e, g, h, i, j, k, l) := s in LVServer.mk a b x c d e g h i j k l.
Definition set_streamClients (x : list Conn) (s : LVServer.t) : LVServer.t :=
  let (a, b, c, _, d, e, g, h, i, j, k, l) := s in LVServer.mk a b c x d e g h i j k l.
Definition set_controlClients (x : list Conn) (s : LVServer.t) : LVServer.t :=
  let (a, b, c, d, _, e, g, h, i, j, k, l) := s in LVServer.mk a b c d x e g h i j k l.
Definition set_motionClients (x : list Conn) (s : LVServer.t) : LVServer.t :=
  let (a, b, c, d, e, _, g, h, i, j, k, l) := s in LVServer.mk a b c d e x g h i j k l.
Definition set_model (x : Model.t) (s : LVServer.t) : LVServer.t :=
  let (a, b, c, d, e, g, _, h, i, j, k, l) := s in LVServer.mk a b c d e g x h i j k l.
Definition set_afInterval (x : Z) (s : LVServer.t) : LVServer.t :=
  let (a, b, c, d, e, g, h, i, j, k, _, l) := s in LVServer.mk a b c d e g h i j k x l.
Definition set_lrFPS (x : Z) (s : LVServer.t) : LVServer.t :=
  let (a, b, c, d, e, g, h, i, j, k, l, _) := s in LVServer.mk a b c d e g h i j k l x.

Definition info_set_AF (x : Z) (p : InfoPayload.t) : InfoPayload.t :=
  let (a, b, c, d, _, e, g, h, i, j) := p in InfoPayload.mk a b c d x e g h i j.
Definition info_set_LR (x : Z) (p : InfoPayload.t) : InfoPayload.t :=
  let (a, b, c, d, e, _, g, h, i, j) := p in InfoPayload.mk a b c d e x g h i j.
Definition info_set_ISOs (x : list Z) (p : InfoPayload.t) : InfoPayload.t :=
  let (a, _, c, d, e, g, h, i, j, k) := p in InfoPayload.mk a x c d e g h i j k.
Definition info_set_FNs (x : list string) (p : InfoPayload.t) : InfoPayload.t :=
  let (a, b, c, _, e, g, h, i, j, k) := p in InfoPayload.mk a b c x e g h i j k.
Definition info_set_capture (width height iso : Z) (fn : string) (p : InfoPayload.t)
  : InfoPayload.t :=
  let (_, b, _, d, e, g, _, _, j, k) := p in InfoPayload.mk iso b fn d e g width height j k.
Definition info_set_Frame_FPS (frame : list Byte.byte) (fps : Z) (p : InfoPayload.t)
  : InfoPayload.t :=
  let (a, b, c, d, e, g, h, i, _, _) := p in InfoPayload.mk a b c d e g h i fps frame.

(* clients[c] = true / delete(clients, c) on a Go map used as a set *)
Definition map_add (c : Conn) (cs : list Conn) : list Conn :=
  if existsb (Nat.eqb c) cs then cs else cs ++ [c].
Definition map_delete (c : Conn) (cs : list Conn) : list Conn :=
  filter (fun c' => negb (Nat.eqb c c')) cs.

(** ** Slices and the binary decoder *)

(* raw[lo:hi] on a slice whose capacity is its length: out-of-order or
   out-of-range bounds panic. *)
Definition slice (raw : list Byte.byte) (lo hi : Z) : M (list Byte.byte) :=
  if (0 <=? lo) && (lo <=? hi) && (hi <=? Z.of_nat (List.length raw))
  then ret (firstn (Z.to_nat (hi - lo)) (skipn (Z.to_nat lo) raw))
  else panic "slice bounds out of range".

(* choices[i] *)
Definition index (choices : list Z) (i : Z) : M Z :=
  if (0 <=? i) && (i <? Z.of_nat (List.length choices))
  then ret (nth (Z.to_nat i) choices 0)
  else panic "index out of range".

(* A reader over the remaining bytes; None is binary.Read's error on a
   short input (io.EOF or io.ErrUnexpectedEOF). *)
Definition Reader (A : Type) : Type := list Byte.byte -> option (A * list Byte.byte).

Definition rret {A} (a : A) : Reader A := fun bs => Some (a, bs).

Definition rbind {A B} (r : Reader A) (k : A -> Reader B) : Reader B :=
  fun bs => match r bs with Some (a, bs') => k a bs' | None => None end.

Definition read_int16 : Reader Z :=
  fun bs => match bs with hi :: lo :: bs' => Some (be_int16 hi lo, bs') | _ => None end.

Definition read_int8 : Reader Z :=
  fun bs => match bs with b :: bs' => Some (be_int8 b, bs') | _ => None end.

(* a [n]byte field whose content is dropped *)
Fixpoint read_pad (n : nat) : Reader unit :=
  match n with
  | O => rret tt
  | S n' => fun bs => match bs with _ :: bs' => read_pad n' bs' | [] => None end
  end.

Notation "x <~ r ;; k" := (rbind r (fun x => k))
  (at level 100, r at next level, right associativity) : go_scope.

(* binary.Read(r, binary.BigEndian, &lvr): the fields of liveViewRaw in
   declaration order. *)
Definition read_liveViewRaw : Reader liveViewRaw.t :=
  LVWidth <~ read_int16 ;;
  LVHeight <~ read_int16 ;;
  Width <~ read_int16 ;;
  Height <~ read_int16 ;;
  _ <~ read_pad 8 ;;
  FocusFrameWidth <~ read_int16 ;;
  FocusFrameHeight <~ read_int16 ;;
  FocusX <~ read_int16 ;;
  FocusY <~ read_int16 ;;
  _ <~ read_pad 5 ;;
  Rotation <~ read_int8 ;;
  _ <~ read_pad 10 ;;
  AutoFocus <~ read_int8 ;;
  _ <~ read_pad 15 ;;
  MovieTimeRemainInt <~ read_int16 ;;
  MovieTimeRemainFrac <~ read_int16 ;;
  Recording <~ read_int8 ;;
  rret (liveViewRaw.mk LVWidth LVHeight Width Height
          FocusFrameWidth FocusFrameHeight FocusX FocusY
          Rotation AutoFocus MovieTimeRemainInt MovieTimeRemainFrac Recording).

Definition binary_Read (bs : list Byte.byte) : option liveViewRaw.t :=
  match read_liveViewRaw bs with
  | Some (lvr, _) => Some lvr
  | None => None
  end.

(** ** float64 (IEEE 754 binary64, as the kernel's primitive floats) *)

(* The integer part of a finite float, towards zero. *)
Definition float_trunc (f : float) : option Z :=
  match Prim2SF f with
  | S754_zero _ => Some 0
  | S754_finite s m e =>
      let mag := if 0 <=? e then Z.shiftl (Z.pos m) e else Z.shiftr (Z.pos m) (- e) in
      Some (if s then - mag else mag)
  | S754_infinity _ => None
  | S754_nan => None
  end.

Definition float_100 : float := PrimFloat.of_uint63 100%uint63.

(** ** bitScan *)

(* for i := 0; i < 64; i++ { if val&(1<<i) > 0 { return i } }; return -1
   The constant 1 takes the type of val, uint32, so 1<<i is 0 from i = 32. *)
Fixpoint bitScan_from (n : nat) (i : Z) (val : Z) : Z :=
  match n with
  | O => -1
  | S n' =>
      if 0 <? Z.land val (uint32 (Z.shiftl 1 i)) then i
      else bitScan_from n' (i + 1) val
  end.

Definition bitScan (val : Z) : Z := bitScan_from 64 0 val.

(* The switch of readLiveViewProhibitCondition. *)
Definition prohibitReason (bit : Z) : string :=
  match bit with
  | -1 => "(empty)"
  | 0 => "recording destination is the card"
  | 2 => "sequence error"
  | 4 => "button is fully pressed"
  | 5 => "aperture value is set by the lens"
  | 6 => "bulb error"
  | 7 => "during cleaning"
  | 8 => "insufficient battery"
  | 9 => "TTL error"
  | 11 => "non-CPU lens is mounted and the mode is not M"
  | 12 => "there are images which are recorded in SDRAM"
  | 13 => "the release mode is mirror-up"
  | 14 => "no card inserted"
  | 15 => "shot command is being processed"
  | 16 => "shooting in progress"
  | 17 => "overheated"
  | 18 => "card is protected"
  | 19 => "card error"
  | 20 => "card is not formatted"
  | 21 => "bulb error"
  | 22 => "the release mode is mirror-up and it is being processed"
  | 24 => "the lens is not extended"
  | _ => "unknown reason"
  end.

(** ** The server's methods *)

Section Server.

Variable pkg : Package.t.

Definition Error (e : error) : string :=
  match e with
  | io_EOF => "EOF"
  | RCError code => Package.RCError_Error pkg code
  | errorString s => s
  end.

(* fmt.Errorf(prefix + "%s", err) *)
Definition Errorf (prefix : string) (e : error) : error :=
  errorString (prefix ++ Error e)%string.

(* casted, ok := err.(RCError); ok && uint16(casted) == code *)
Definition is_RC (e : error) (code : Z) : bool :=
  match e with
  | RCError c => uint16 c =? code
  | _ => false
  end.

(* uint16(f) for a float64 f *)
Definition uint16_of_float (f : float) : Z :=
  match float_trunc f with
  | Some z => if (0 <=? z) && (z <? 2 ^ 16) then z else Package.uint16_unrepresentable pkg f
  | None => Package.uint16_unrepresentable pkg f
  end.

Definition NewLVServer (dev : option Device) (maxResolution : bool) : LVServer.t :=
  LVServer.mk [] false InfoPayload.zero [] [] [] Model.zero
    dev (match dev with None => true | Some _ => false end)
    maxResolution 5 0.

(** *** Thread-safe MTP communication *)

Definition switchRecordMedia : M (option error) :=
  r <- callDev (GetDevicePropDesc DPC_NIKON_RecordingMedia) ;;
  match DevReply.err r with
  | Some e => ret (Some (Errorf "failed to get recording media: " e))
  | None =>
      match DevicePropDesc.CurrentValue (DevReply.desc r) with
      | VInt8 currentMedia =>
          if currentMedia =? int8 (Package.RecordingMediaCard pkg) then
            logf LvDebug "current recording media: card" [] ;;;
            logf LvDebug "the recording media is the card. Switching it to the SDRAM." [] ;;;
            r' <- callDev (SetDevicePropValue DPC_NIKON_RecordingMedia
                             (Payload8 (Package.RecordingMediaSDRAM pkg))) ;;
            match DevReply.err r' with
            | Some e => ret (Some (Errorf "failed to SetDevicePropValue: " e))
            | None => ret None
            end
          else
            logf LvDebug "current recording media: SDRAM" [] ;;;
            ret None
      | _ =>
          logf LvWarning "unexpected format of the RecordingMedia property" [] ;;;
          ret None
      end
  end.

(* for _, iface := range values { v, ok := iface.(uint64); if !ok { return
   err }; choices = append(choices, v) }: None when an assertion fails. *)
Fixpoint assert_uint64s (values : list DataValue) (choices : list Z) : option (list Z) :=
  match values with
  | [] => Some choices
  | VUint64 v :: values' => assert_uint64s values' (choices ++ [v])
  | _ :: _ => None
  end.

Definition changeResolution : M (option error) :=
  logf LvInfo "getting available resolutions" [] ;;;
  r <- callDev (GetDevicePropDesc DPC_NIKON_Resolution) ;;
  match DevReply.err r with
  | Some e => ret (Some (Errorf "failed to get recording media: " e))
  | None =>
      match DevicePropDesc.Form (DevReply.desc r) with
      | PropDescOtherForm =>
          ret (Some (errorString "failed to assert returned value (DPC_NIKON_Resolution)"))
      | PropDescEnumForm values =>
          match assert_uint64s values [] with
          | None => ret (Some (errorString "failed to assert a value in the array as uint64"))
          | Some choices =>
              logf LvInfo "available resolutions (higher is larger): %v" [ArgInts choices] ;;;
              largest <- index choices (Z.of_nat (List.length choices) - 1) ;;
              logf LvInfo "automatically use the largest choice: %d" [ArgInt largest] ;;;
              s <- get ;;
              match Model.ResolutionType_ (LVServer.model s) with
              | ResolutionType64 =>
                  v <- index choices (Z.of_nat (List.length choices) - 1) ;;
                  r' <- callDev (SetDevicePropValue DPC_NIKON_Resolution (Payload64 (uint64 v))) ;;
                  match DevReply.err r' with
                  | Some e => ret (Some (Errorf "failed to SetDevicePropValue: " e))
                  | None => ret None
                  end
              | ResolutionType8 =>
                  v <- index choices (Z.of_nat (List.length choices) - 1) ;;
                  r' <- callDev (SetDevicePropValue DPC_NIKON_Resolution (Payload8 (uint8 v))) ;;
                  match DevReply.err r' with
                  | Some e => ret (Some (Errorf "failed to SetDevicePropValue: " e))
                  | None => ret None
                  end
              end
          end
      end
  end.

Definition readLiveViewProhibitCondition : M (string * option error) :=
  r <- callDev (GetDevicePropValue DPC_NIKON_LiveViewProhibitCondition) ;;
  match DevReply.err r with
  | Some e => ret ("", Some (Errorf "failed to read LiveViewProhibitCondition: " e))
  | None => ret (prohibitReason (bitScan (uint32 (DevReply.value r))), None)
  end.

Definition startLiveView : M (option error) :=
  Lock mtpLock ;;;
  defer (Unlock mtpLock) (
    r <- callDev (RunTransactionWithNoParams OC_NIKON_DeviceReady) ;;
    match DevReply.err r with
    | Some _ => ret (Some (errorString "failed to start live view: the camera is not ready"))
    | None =>
        s <- get ;;
        e1 <- (if Model.QuirkSwitchMedia (LVServer.model s) then switchRecordMedia else ret None) ;;
        match e1 with
        | Some e => ret (Some (Errorf "failed to switch recording media: " e))
        | None =>
            (if LVServer.maxResolution s then
               e2 <- changeResolution ;;
               match e2 with
               | Some e =>
                   logf LvWarning
                     "failed to change the image resolution (%s); if it affects capturing frames, consider disabling `-max-resolution`"
                     [ArgStr (Error e)]
               | None => ret tt
               end
             else ret tt) ;;;
            r' <- callDev (RunTransactionWithNoParams OC_NIKON_StartLiveView) ;;
            match DevReply.err r' with
            | Some e =>
                if is_RC e (Package.RC_NIKON_InvalidStatus pkg) then
                  logf LvError "failed to start live view (InvalidStatus). Investigating the reason..." [] ;;;
                  rr <- readLiveViewProhibitCondition ;;
                  match snd rr with
                  | Some e' =>
                      ret (Some (Errorf "failed to start live view and failed to investigate the reason: " e'))
                  | None =>
                      ret (Some (errorString ("failed to start live view, reason: " ++ fst rr)%string))
                  end
                else ret (Some (Errorf "failed to start live view: " e))
            | None => ret None
            end
        end
    end).

Definition endLiveView : M (option error) :=
  Lock mtpLock ;;;
  defer (Unlock mtpLock) (
    s <- get ;;
    if LVServer.dummy s then ret None
    else
      r <- callDev (RunTransactionWithNoParams OC_NIKON_EndLiveView) ;;
      match DevReply.err r with
      | Some e => ret (Some (Errorf "failed to end live view: " e))
      | None => ret None
      end).

(* The source returns (error, bool) in this order. *)
Definition getLiveViewStatusInner : M (option error * bool) :=
  r <- callDev (GetDevicePropValue DPC_NIKON_LiveViewStatus) ;;
  let err := DevReply.err r in
  if fails_not_EOF err then ret (err, false)
  else ret (None, match err with Some e => is_EOF e | None => false end).

Definition getLiveViewStatus : M (bool * option error) :=
  Lock mtpLock ;;;
  defer (Unlock mtpLock) (
    s <- get ;;
    if LVServer.dummy s then ret (true, None)
    else
      r <- getLiveViewStatusInner ;;
      match fst r with
      | Some e => ret (false, Some (Errorf "failed to get live view status: " e))
      | None => ret (snd r, None)
      end).

Definition autoFocus : M (option error) :=
  Lock mtpLock ;;;
  defer (Unlock mtpLock) (
    s <- get ;;
    if LVServer.dummy s then ret None
    else
      r <- callDev (RunTransactionWithNoParams OC_NIKON_AfDrive) ;;
      match DevReply.err r with
      | Some e => ret (Some (Errorf "failed to do auto focus: " e))
      | None => ret None
      end).

Definition rotation_of (raw : Z) : Rotation :=
  if raw =? 1 then RotationMinus90
  else if raw =? 2 then Rotation90
  else if raw =? 3 then Rotation180
  else Rotation0.

Definition af_of (raw : Z) : AF :=
  if raw =? 1 then AFFail
  else if raw =? 2 then AFSuccess
  else AFNotActive.

Definition getLiveViewImgInner : M (LiveView.t * option error) :=
  s <- get ;;
  let hs := Model.HeaderSize (LVServer.model s) in
  r <- callDev (RunTransaction OC_NIKON_GetLiveViewImg []) ;;
  match DevReply.err r with
  | Some e =>
      if is_RC e (Package.RC_NIKON_NotLiveView pkg) then
        ret (LiveView.zero,
             Some (errorString "failed to obtain an image: live view is not activated"))
      else ret (LiveView.zero, Some (Errorf "failed to obtain an image: " e))
  | None =>
      let raw := DevReply.data r in
      if Z.of_nat (List.length raw) <=? hs then
        ret (LiveView.zero,
             Some (errorString "failed to obtain an image: the data has insufficient length"))
      else
        header <- slice raw 8 hs ;;
        match binary_Read header with
        | None => ret (LiveView.zero, Some (errorString "failed to decode header"))
        | Some lvr =>
            jpeg <- slice raw hs (Z.of_nat (List.length raw)) ;;
            ret (LiveView.mk
                   (liveViewRaw.LVWidth lvr) (liveViewRaw.LVHeight lvr)
                   (liveViewRaw.Width lvr) (liveViewRaw.Height lvr)
                   (liveViewRaw.FocusFrameWidth lvr) (liveViewRaw.FocusFrameHeight lvr)
                   (liveViewRaw.FocusX lvr) (liveViewRaw.FocusY lvr)
                   (rotation_of (liveViewRaw.Rotation lvr))
                   (af_of (liveViewRaw.AutoFocus lvr))
                   (liveViewRaw.Recording lvr =? 1)
                   jpeg,
                 None)
        end
  end.

Definition getLiveViewImg : M (LiveView.t * option error) :=
  Lock mtpLock ;;;
  defer (Unlock mtpLock) (
    s <- get ;;
    if LVServer.dummy s then ret (LiveView.zero, None)
    else
      r <- getLiveViewImgInner ;;
      match snd r with
      | Some e => ret (LiveView.zero, Some e)
      | None => ret (fst r, None)
      end).

(* The range loops of getISOs and getFNs: the elements converted so far,
   and whether every assertion to uint64 held. *)
Fixpoint collect_uint64 {A} (conv : Z -> A) (values : list DataValue) (acc : list A)
  : list A * bool :=
  match values with
  | [] => (acc, true)
  | VUint64 v :: values' => collect_uint64 conv values' (acc ++ [conv v])
  | _ :: _ => (acc, false)
  end.

Definition getISOs : M (list Z * Z * option error) :=
  Lock mtpLock ;;;
  defer (Unlock mtpLock) (
    s <- get ;;
    if LVServer.dummy s then ret ([100; 1000; 10000], 100, None)
    else
      r <- callDev (GetDevicePropDesc DPC_ExposureIndex) ;;
      if fails_not_EOF (DevReply.err r) then ret ([], 0, DevReply.err r)
      else
        match DevicePropDesc.Form (DevReply.desc r) with
        | PropDescOtherForm =>
            ret ([], 0, Some (errorString
              "unexpedted type: could not assert that returned prop is enum form"))
        | PropDescEnumForm values =>
            let (isoi, ok) := collect_uint64 int values [] in
            if negb ok then
              ret (isoi, 0, Some (errorString
                "unexpedted type: could not assert that form value is uint64"))
            else
              match DevicePropDesc.CurrentValue (DevReply.desc r) with
              | VUint16 currentISO => ret (isoi, int currentISO, None)
              | _ =>
                  ret (isoi, 0, Some (errorString
                    "unexpedted type: could not assert that current value is uint16"))
              end
        end).

Definition setISO (iso : Z) : M (option error) :=
  Lock mtpLock ;;;
  defer (Unlock mtpLock) (
    s <- get ;;
    if LVServer.dummy s then ret None
    else
      r <- callDev (SetDevicePropValue DPC_ExposureIndex (Payload16 (uint16 iso))) ;;
      match DevReply.err r with
      | Some e => ret (Some (Errorf "failed to set ISO: " e))
      | None => ret None
      end).

Definition getFNs : M (list string * string * option error) :=
  Lock mtpLock ;;;
  defer (Unlock mtpLock) (
    s <- get ;;
    if LVServer.dummy s then ret (["3.5"; "10"; "22"], "3.5", None)
    else
      r <- callDev (GetDevicePropDesc DPC_FNumber) ;;
      if fails_not_EOF (DevReply.err r) then ret ([], "", DevReply.err r)
      else
        match DevicePropDesc.Form (DevReply.desc r) with
        | PropDescOtherForm =>
            ret ([], "", Some (errorString
              "unexpedted type: could not assert that returned prop is enum form"))
        | PropDescEnumForm values =>
            let (fns, ok) := collect_uint64 (Package.FormatFloat100 pkg) values [] in
            if negb ok then
              ret (fns, "", Some (errorString
                "unexpedted type: could not assert that form value is uint64"))
            else
              match DevicePropDesc.CurrentValue (DevReply.desc r) with
              | VUint16 current => ret (fns, Package.FormatFloat100 pkg current, None)
              | _ =>
                  ret (fns, "", Some (errorString
                    "unexpedted type: could not assert that current value is uint16"))
              end
        end).

Definition setFN (fn : string) : M (option error) :=
  Lock mtpLock ;;;
  defer (Unlock mtpLock) (
    s <- get ;;
    if LVServer.dummy s then ret None
    else
      let (fnf, perr) := Package.ParseFloat pkg fn in
      match perr with
      | Some e => ret (Some (Errorf "failed to parse f-number: " e))
      | None =>
          r1 <- callDev (RunTransactionWithNoParams OC_NIKON_EndLiveView) ;;
          match DevReply.err r1 with
          | Some e => ret (Some (Errorf "failed to set f-number: failed to stop live view: " e))
          | None =>
              r2 <- callDev (SetDevicePropValue DPC_FNumber
                               (Payload16 (uint16_of_float (PrimFloat.mul fnf float_100)))) ;;
              match DevReply.err r2 with
              | Some e => ret (Some (Errorf "failed to set f-number: " e))
              | None =>
                  r3 <- callDev (RunTransactionWithNoParams OC_NIKON_StartLiveView) ;;
                  match DevReply.err r3 with
                  | Some e =>
                      if is_RC e (Package.RC_NIKON_InvalidStatus pkg) then
                        ret (Some (errorString
                          "failed to set f-number: failed to start live view: InvalidStatus (battery level is low?)"))
                      else ret (Some (Errorf "failed to set f-number: start live view: " e))
                  | None => ret None
                  end
              end
          end
      end).

(** *** Workers *)

(* How one pass through a worker's for-loop ends. *)
Inductive Ctl : Type :=
| Continue
| Return (e : option error).

(* A for-loop driven by what its select observes on each pass; None when
   the observations run out with the loop still going. *)
Fixpoint loop {I} (body : I -> M Ctl) (inputs : list I) : M (option (option error)) :=
  match inputs with
  | [] => ret None
  | i :: inputs' =>
      c <- body i ;;
      match c with
      | Continue => loop body inputs'
      | Return e => ret (Some e)
      end
  end.

(* What a websocket or MJPEG write returns is the network's choice. *)
Variable WriteMessage : Conn -> Message -> option error.

Definition workerLV_body (done : bool) : M Ctl :=
  if done then ret (Return None)
  else
    r <- getLiveViewStatus ;;
    match snd r with
    | Some e => logf LvWarning "workerLV: %s" [ArgStr (Error e)] ;;; ret Continue
    | None =>
        if fst r then ret Continue
        else
          e <- startLiveView ;;
          match e with
          | Some e' => logf LvWarning "workerLV: %s" [ArgStr (Error e')] ;;; ret Continue
          | None => ret Continue
          end
    end.

Inductive AFSelect : Type := AFTick | AFNow | AFDone.

Definition workerAF_body (sel : AFSelect) : M Ctl :=
  match sel with
  | AFDone => ret (Return None)
  | _ =>
      e <- autoFocus ;;
      match e with
      | Some e' => logf LvWarning "workerAF: %s" [ArgStr (Error e')] ;;; ret Continue
      | None => ret Continue
      end
  end.

(* The closure [set] of frameCaptorSakura. The deferred unlocks run last
   registered first. *)
Definition frameCaptorSakura_set (lv : LiveView.t) (iso : Z) (fn : string) : M unit :=
  Lock frameLock ;;;
  Lock infoLock ;;;
  defer (Unlock frameLock) (
  defer (Unlock infoLock) (
    modify (set_Frame (LiveView.JPEG lv)) ;;;
    modify (fun s => set_info (info_set_capture (int (LiveView.LVWidth lv))
                                 (int (LiveView.LVHeight lv)) iso fn (LVServer.info s)) s) ;;;
    emit EvTrySendNewFrame ;;;
    modify (set_newFrameChan true))).

Definition frameCaptorSakura_body (done : bool) : M Ctl :=
  if done then ret (Return None)
  else
    s <- get ;;
    if LVServer.dummy s then Sleep (Milliseconds 1000) ;;; ret Continue
    else
      (if 0 <? LVServer.lrFPS s then Sleep (UntilNextSlot (LVServer.lrFPS s)) else ret tt) ;;;
      r <- getLiveViewImg ;;
      match snd r with
      | Some e =>
          if String.eqb (Error e) "failed to obtain an image: live view is not activated" then
            Sleep (Milliseconds 1000) ;;; ret Continue
          else
            logf LvWarning "frameCaptor: %s" [ArgStr (Error e)] ;;;
            Sleep (Milliseconds 1000) ;;; ret Continue
      | None =>
          ri <- getISOs ;;
          currentISO <- match snd ri with
                        | Some e =>
                            logf LvWarning "frameCaptor: failed to get current ISO: %s"
                              [ArgStr (Error e)] ;;; ret 0
                        | None => ret (snd (fst ri))
                        end ;;
          rf <- getFNs ;;
          currentFN <- match snd rf with
                       | Some e =>
                           logf LvWarning "frameCaptor: failed to get current f-number: %s"
                             [ArgStr (Error e)] ;;; ret "0"
                       | None => ret (snd (fst rf))
                       end ;;
          frameCaptorSakura_set (fst r) currentISO currentFN ;;;
          emit EvIncrFPS ;;;
          ret Continue
      end.

Definition copyFrame : M (list Byte.byte) :=
  Lock frameLock ;;;
  defer (Unlock frameLock) (
    s <- get ;;
    ret (LVServer.Frame s)).

Fixpoint range {A} (xs : list A) (body : A -> M unit) : M unit :=
  match xs with
  | [] => ret tt
  | x :: xs' => body x ;;; range xs' body
  end.

Definition write_logged (c : Conn) (m : Message) (onError : string) : M unit :=
  emit (EvWrite c m) ;;;
  match WriteMessage c m with
  | Some e => logf LvError onError [ArgStr (Error e)]
  | None => ret tt
  end.

(* The closure [broadcast] of workerBroadcastFrame. *)
Definition workerBroadcastFrame_broadcast (jpeg : list Byte.byte) : M unit :=
  Lock streamLock ;;;
  defer (Unlock streamLock) (
    Lock motionLock ;;;
    defer (Unlock motionLock) (
      s <- get ;;
      range (LVServer.streamClients s) (fun c =>
        write_logged c (Base64Text jpeg) "workerBroadcastFrame: failed to send a frame: %s") ;;;
      range (LVServer.motionClients s) (fun w =>
        write_logged w (RawJPEG jpeg) "workerBroadcastFrame: failed to send a frame: %s"))).

Definition workerBroadcastFrame_body (done : bool) : M Ctl :=
  if done then ret (Return None)
  else
    modify (set_newFrameChan false) ;;;
    jpeg <- copyFrame ;;
    if (List.length jpeg =? 0)%nat then ret Continue
    else workerBroadcastFrame_broadcast jpeg ;;; ret Continue.

(* The closure [broadcast] of workerBroadcastInfo; [rate] is what
   s.fpsRate.Rate() reads. *)
Definition workerBroadcastInfo_broadcast (rate : Z) : M unit :=
  Lock controlLock ;;;
  Lock infoLock ;;;
  defer (Unlock controlLock) (
  defer (Unlock infoLock) (
    frame <- copyFrame ;;
    modify (fun s => set_info (info_set_Frame_FPS frame (int rate) (LVServer.info s)) s) ;;;
    s <- get ;;
    range (LVServer.controlClients s) (fun c =>
      s' <- get ;;
      write_logged c (InfoJSON (LVServer.info s')) "workerBroadcastInfo: failed to send a frame: %s"))).

Definition workerBroadcastInfo_body (tick : option Z) : M Ctl :=
  match tick with
  | None => ret (Return None)
  | Some rate => workerBroadcastInfo_broadcast rate ;;; ret Continue
  end.

(** *** HTTP handlers *)

Definition registerStreamClient (c : Conn) : M unit :=
  Lock streamLock ;;;
  defer (Unlock streamLock) (
    modify (fun s => set_streamClients (map_add c (LVServer.streamClients s)) s)).

Definition unregisterStreamClient (c : Conn) : M unit :=
  Lock streamLock ;;;
  defer (Unlock streamLock) (
    modify (fun s => set_streamClients (map_delete c (LVServer.streamClients s)) s)).

Definition registerControlClient (c : Conn) : M unit :=
  Lock controlLock ;;;
  defer (Unlock controlLock) (
    modify (fun s => set_controlClients (map_add c (LVServer.controlClients s)) s)).

Definition unregisterControlClient (c : Conn) : M unit :=
  Lock controlLock ;;;
  defer (Unlock controlLock) (
    modify (fun s => set_controlClients (map_delete c (LVServer.controlClients s)) s)).

(* The source takes controlLock here, not motionLock. *)
Definition registerMotionClient (w : Conn) : M unit :=
  Lock controlLock ;;;
  defer (Unlock controlLock) (
    modify (fun s => set_motionClients (map_add w (LVServer.motionClients s)) s)).

Definition unregisterMotionClient (w : Conn) : M unit :=
  Lock motionLock ;;;
  defer (Unlock motionLock) (
    modify (fun s => set_motionClients (map_delete w (LVServer.motionClients s)) s)).

(* [count] messages are read before ws.ReadJSON fails with [readErr]. *)
Definition HandleStream (ws : Conn) (upgradeErr : option error) (count : nat) (readErr : error)
  : M unit :=
  match upgradeErr with
  | Some e => logf LvError "HandleStream: failed to upgrade: %s" [ArgStr (Error e)]
  | None => ret tt
  end ;;;
  defer (emit (EvClose ws)) (
    registerStreamClient ws ;;;
    logf LvError "HandleStream: failed to read a message: %s" [ArgStr (Error readErr)] ;;;
    unregisterStreamClient ws).

(* The closure [setInfo] of HandleControl. *)
Definition HandleControl_setInfo (af lr : option Z) : M unit :=
  Lock infoLock ;;;
  defer (Unlock infoLock) (
    match af with
    | Some v => modify (fun s => set_info (info_set_AF v (LVServer.info s)) s)
    | None => ret tt
    end ;;;
    match lr with
    | Some v => modify (fun s => set_info (info_set_LR v (LVServer.info s)) s)
    | None => ret tt
    end).

(* time.Duration(n) * time.Second, an int64 count of nanoseconds *)
Definition seconds (n : Z) : Z := int64 (n * 1000000000).

(* One pass of HandleControl's loop after ws.ReadJSON returned [p]. *)
Definition HandleControl_message (p : ControlPayload.t) : M unit :=
  go_on <- match ControlPayload.AFInterval p with
           | Some af =>
               HandleControl_setInfo (Some af) None ;;;
               if 0 <? af then
                 logf LvDebug "HandleControl: enable AF" [] ;;;
                 emit EvTickerStart ;;;
                 modify (set_afInterval af) ;;;
                 emit (EvStoreAFInterval af) ;;;
                 emit (EvTickerSetInterval (seconds af)) ;;;
                 logf LvDebug "HandleControl: set AF interval: %d" [ArgInt af] ;;;
                 ret true
               else
                 logf LvDebug "HandleControl: disable AF" [] ;;;
                 emit EvTickerStop ;;;
                 ret false
           | None => ret true
           end ;;
  if negb go_on then ret tt
  else
    match ControlPayload.AFFocusNow p with
    | Some true =>
        logf LvDebug "HandleControl: focus now" [] ;;;
        emit EvTrySendAFNow
    | _ => ret tt
    end ;;;
    match ControlPayload.LRFPS p with
    | Some lr =>
        HandleControl_setInfo None (Some lr) ;;;
        (if 0 <? lr then logf LvDebug "HandleControl: set rate limit: %d" [ArgInt lr]
         else logf LvDebug "HandleControl: disable rate limit" []) ;;;
        modify (set_lrFPS lr) ;;;
        emit (EvStoreLRFPS lr)
    | None => ret tt
    end ;;;
    match ControlPayload.ISO p with
    | Some iso =>
        logf LvDebug "HandleControl: set ISO: %d" [ArgInt iso] ;;;
        e <- setISO iso ;;
        match e with
        | Some e' => logf LvError "HandleControl: failed to set ISO: %s" [ArgStr (Error e')]
        | None => ret tt
        end
    | None => ret tt
    end ;;;
    match ControlPayload.FN p with
    | Some fn =>
        logf LvDebug "HandleControl: set f-number: %s" [ArgStr fn] ;;;
        e <- setFN fn ;;
        match e with
        | Some e' => logf LvError "HandleControl: failed to set f-number: %s" [ArgStr (Error e')]
        | None => ret tt
        end
    | None => ret tt
    end.

(* [msgs] are read in turn before ws.ReadJSON fails with [readErr]. *)
Definition HandleControl (ws : Conn) (upgradeErr : option error)
  (msgs : list ControlPayload.t) (readErr : error) : M unit :=
  match upgradeErr with
  | Some e => logf LvError "HandleControl: failed to upgrade: %s" [ArgStr (Error e)]
  | None => ret tt
  end ;;;
  defer (emit (EvClose ws)) (
    registerControlClient ws ;;;
    range msgs HandleControl_message ;;;
    logf LvError "HandleControl: failed to read a message: %s" [ArgStr (Error readErr)] ;;;
    unregisterControlClient ws).

(* The request's context is done between the two calls. *)
Definition HandleMotionJPEG (writer : Conn) : M unit :=
  logf LvInfo "handling GET /mjpeg" [] ;;;
  registerMotionClient writer ;;;
  unregisterMotionClient writer.

Definition HandleSnapshot (writer : Conn) : M unit :=
  jpeg <- copyFrame ;;
  emit (EvWrite writer (RawJPEG jpeg)).

(** *** The supervisor *)

(* Run up to s.eg.Wait(), whose result [waited] is the workers'. *)
Definition Run (waited : option error) : M (option error) :=
  defer (_ <- endLiveView ;; ret tt) (
    r <- callDev ID ;;
    match DevReply.err r with
    | Some e => Fatalf "failed to get device identity: %s" [ArgStr (Error e)]
    | None => ret tt
    end ;;;
    let id := DevReply.id r in
    logf LvDebug "manufacturer = %s, product = %s, serialnumber = %s"
      [ArgStr (DeviceID.Manufacturer id); ArgStr (DeviceID.Product id);
       ArgStr (DeviceID.SerialNumber id)] ;;;
    let (matched, ok) := Package.models_Match pkg (DeviceID.Product id) in
    model <- (if ok then
                logf LvDebug "model matched: %s" [ArgStr (Model.Name matched)] ;;;
                ret matched
              else
                logf LvDebug "model didn't match, falling back to the generic model %s"
                  [ArgStr (Model.Name matched)] ;;;
                ret (Package.models_Generic pkg)) ;;
    modify (set_model model) ;;;
    ri <- getISOs ;;
    isos <- match snd ri with
            | Some e =>
                logf LvWarning "failed to obtain ISO list: %s" [ArgStr (Error e)] ;;; ret [0]
            | None => ret (fst (fst ri))
            end ;;
    modify (fun s => set_info (info_set_ISOs isos (LVServer.info s)) s) ;;;
    rf <- getFNs ;;
    fns <- match snd rf with
           | Some e =>
               logf LvWarning "failed to obtain F-values: %s" [ArgStr (Error e)] ;;; ret ["0"]
           | None => ret (fst (fst rf))
           end ;;
    modify (fun s => set_info (info_set_FNs fns (LVServer.info s)) s) ;;;
    emit (EvGo workerLV_) ;;;
    emit (EvGo workerAF_) ;;;
    Sleep (Milliseconds 500) ;;;
    emit (EvGo frameCaptorSakura_) ;;;
    emit (EvGo workerBroadcastFrame_) ;;;
    emit (EvGo workerBroadcastInfo_) ;;;
    ret waited).

End Server.

(** ** Fixtures: a package instance and scripted devices *)

(* Plain decimals "d...d.d...d" with a mantissa below 2^53 and at most 22
   fractional digits: there one correctly rounded division gives the
   float64 nearest to the decimal, which is what strconv.ParseFloat
   returns. *)
Fixpoint decimal_digits (s : string) (seen_point : bool) (m k : Z) : option (Z * Z) :=
  match s with
  | EmptyString => Some (m, k)
  | String c s' =>
      if Ascii.eqb c "."%char then
        if seen_point then None else decimal_digits s' true m k
      else
        let d := Z.of_nat (nat_of_ascii c) - 48 in
        if (0 <=? d) && (d <=? 9)
        then decimal_digits s' seen_point (10 * m + d) (if seen_point then k + 1 else k)
        else None
  end.

Definition plain_ParseFloat (s : string) : float * option error :=
  match decimal_digits s false 0 0 with
  | Some (m, k) =>
      if (m <? 2 ^ 53) && (k <=? 22) && negb (String.eqb s "") then
        (PrimFloat.div (PrimFloat.of_uint63 (Uint63.of_Z m))
                       (PrimFloat.of_uint63 (Uint63.of_Z (10 ^ k))), None)
      else (PrimFloat.zero, Some (errorString "value out of range"))
  | None => (PrimFloat.zero, Some (errorString "invalid syntax"))
  end.

Definition generic_model : Model.t := Model.mk "Generic" 384 false ResolutionType8.

Definition test_pkg : Package.t :=
  Package.mk 40964 40971 0 1
    (fun _ => "response code error")
    plain_ParseFloat
    (fun _ => "0")
    (fun _ => 0)
    (fun _ => (generic_model, false))
    generic_model.

(* A device whose replies do not depend on what was called before. *)
Definition scripted (script : DevCall -> DevReply.t) : Device := fun _ c => script c.

Definition reply_value (v : Z) : DevReply.t :=
  DevReply.mk None [] v DevicePropDesc.zero DeviceID.zero.
Definition reply_data (bs : list Byte.byte) : DevReply.t :=
  DevReply.mk None bs 0 DevicePropDesc.zero DeviceID.zero.
Definition reply_desc (d : DevicePropDesc.t) : DevReply.t :=
  DevReply.mk None [] 0 d DeviceID.zero.

(* A camera that refuses live view with InvalidStatus and reports the
   prohibit-condition bitmap [bitmap]. *)
Definition refusing_camera (bitmap : Z) : Device :=
  scripted (fun c =>
    match c with
    | RunTransactionWithNoParams OC_NIKON_StartLiveView => DevReply.fail (RCError 40964)
    | GetDevicePropValue DPC_NIKON_LiveViewProhibitCondition => reply_value bitmap
    | _ => DevReply.ok
    end).

Definition world_of (s : LVServer.t) : World.t := World.mk s [].

(* A camera that accepts every call. *)
Definition ok_camera : Device := scripted (fun _ => DevReply.ok).

(* A camera whose Resolution descriptor enumerates [values]. *)
Definition enum_camera (values : list DataValue) : Device :=
  scripted (fun c =>
    match c with
    | GetDevicePropDesc DPC_NIKON_Resolution =>
        reply_desc (DevicePropDesc.mk VOther (PropDescEnumForm values))
    | _ => DevReply.ok
    end).

(* A camera that answers GetLiveViewImg with the buffer [bs]. *)
Definition image_camera (bs : list Byte.byte) : Device :=
  scripted (fun c =>
    match c with
    | RunTransaction OC_NIKON_GetLiveViewImg _ => reply_data bs
    | _ => DevReply.ok
    end).

(* A camera whose LiveViewStatus read returns [e]. *)
Definition status_camera (e : option error) : Device :=
  scripted (fun c =>
    match c with
    | GetDevicePropValue DPC_NIKON_LiveViewStatus =>
        DevReply.mk e [] 0 DevicePropDesc.zero DeviceID.zero
    | _ => DevReply.ok
    end).

(* A server as Run leaves it once the model is resolved. *)
Definition server_with (dev : option Device) (maxResolution : bool) (m : Model.t)
  : LVServer.t :=
  set_model m (NewLVServer dev maxResolution).

(* A live-view reply for HeaderSize 384: 640x480 preview of a 6000x4000
   frame, rotation 2, autofocus 2, recording, and a four-byte payload. *)
Definition sample_header : list Byte.byte :=
  [Byte.x02; Byte.x80; Byte.x01; Byte.xe0; Byte.x17; Byte.x70; Byte.x0f; Byte.xa0]
  ++ repeat Byte.x00 8
  ++ [Byte.x00; Byte.x64; Byte.x00; Byte.x64; Byte.x0b; Byte.xb8; Byte.x07; Byte.xd0]
  ++ repeat Byte.x00 5 ++ [Byte.x02]
  ++ repeat Byte.x00 10 ++ [Byte.x02]
  ++ repeat Byte.x00 15
  ++ [Byte.x00; Byte.x00; Byte.x00; Byte.x00; Byte.x01].

Definition sample_jpeg : list Byte.byte := [Byte.xff; Byte.xd8; Byte.xff; Byte.xd9].

Definition sample_reply : list Byte.byte :=
  repeat Byte.x00 8 ++ sample_header ++ repeat Byte.x00 315 ++ sample_jpeg.

(* A control message that sets every field. *)
Definition full_message : ControlPayload.t :=
  ControlPayload.mk (Some 5) (Some true) (Some 30) (Some 400) (Some "5.6").

(** ** Properties *)

(* A string occurs inside another one. *)
Definition contains (s sub : string) : Prop :=
  exists pre post, s = (pre ++ sub ++ post)%string.

(** *** bitScan *)

Lemma land_pow2 (val i : Z) :
  0 <= i -> Z.land val (2 ^ i) = if Z.testbit val i then 2 ^ i else 0.
Proof.
  intros Hi. apply Z.bits_inj'. intros n Hn.
  rewrite Z.land_spec, Z.pow2_bits_eqb by lia.
  destruct (Z.eqb_spec i n) as [->|Hne].
  - destruct (Z.testbit val n); simpl.
    + now rewrite Z.pow2_bits_true by lia.
    + now rewrite Z.bits_0.
  - rewrite Bool.andb_false_r.
    destruct (Z.testbit val i).
    + now rewrite Z.pow2_bits_false by lia.
    + now rewrite Z.bits_0.
Qed.

(* 1<<i at type uint32 *)
Lemma uint32_shiftl_1 (i : Z) :
  0 <= i -> uint32 (Z.shiftl 1 i) = if i <? 32 then 2 ^ i else 0.
Proof.
  intros Hi. unfold uint32. rewrite Z.shiftl_1_l.
  destruct (Z.ltb_spec i 32).
  - apply Z.mod_small. split; [apply Z.pow_nonneg; lia|].
    apply Z.pow_lt_mono_r; lia.
  - replace i with (32 + (i - 32)) by lia.
    rewrite Z.pow_add_r by lia.
    rewrite Z.mul_comm. apply Z.mod_mul. lia.
Qed.

Lemma bitScan_test (val i : Z) :
  0 <= i ->
  (0 <? Z.land val (uint32 (Z.shiftl 1 i))) = Z.testbit val i && (i <? 32).
Proof.
  intros Hi. rewrite uint32_shiftl_1 by assumption.
  destruct (Z.ltb_spec i 32).
  - rewrite land_pow2, Bool.andb_true_r by assumption.
    destruct (Z.testbit val i).
    + apply Z.ltb_lt. apply Z.pow_pos_nonneg; lia.
    + reflexivity.
  - rewrite Z.land_0_r, Bool.andb_false_r. reflexivity.
Qed.

(* The loop from index i with n passes left: it stops at the first set
   bit below 32, or runs out. *)
Lemma bitScan_from_spec (val : Z) (n : nat) :
  forall i, 0 <= i ->
    (bitScan_from n i val = -1 /\
     forall j, i <= j < Z.min (i + Z.of_nat n) 32 -> Z.testbit val j = false)
    \/
    (i <= bitScan_from n i val < Z.min (i + Z.of_nat n) 32 /\
     Z.testbit val (bitScan_from n i val) = true /\
     forall j, i <= j < bitScan_from n i val -> Z.testbit val j = false).
Proof.
  induction n as [|n IH]; intros i Hi; simpl bitScan_from.
  - left. split; [reflexivity|]. intros j Hj. lia.
  - rewrite bitScan_test by assumption.
    destruct (Z.testbit val i) eqn:Hbit; destruct (Z.ltb_spec i 32); simpl.
    + right. repeat split; try lia. exact Hbit.
    + destruct (IH (i + 1)) as [[E Hlow]|[Hr [Hset Hlow]]]; [lia| |lia].
      left. split; [exact E|]. intros j Hj. lia.
    + destruct (IH (i + 1)) as [[E Hlow]|[Hr [Hset Hlow]]]; [lia| |].
      * left. split; [exact E|]. intros j Hj.
        destruct (Z.eq_dec j i) as [->|]; [exact Hbit|]. apply Hlow. lia.
      * right. repeat split; try lia; [exact Hset|]. intros j Hj.
        destruct (Z.eq_dec j i) as [->|]; [exact Hbit|]. apply Hlow. lia.
    + destruct (IH (i + 1)) as [[E Hlow]|[Hr [Hset Hlow]]]; [lia| |lia].
      left. split; [exact E|]. intros j Hj. lia.
Qed.

Lemma bitScan_zero : bitScan 0 = -1.
Proof. reflexivity. Qed.

Lemma uint32_range (v : Z) : 0 <= uint32 v < 2 ^ 32.
Proof. unfold uint32. apply Z.mod_pos_bound. lia. Qed.

(* bitScan on a 32-bit value: -1 for zero, else the lowest set bit. *)
Lemma bitScan_lowest (val : Z) :
  0 <= val < 2 ^ 32 ->
  (val = 0 /\ bitScan val = -1)
  \/
  (val <> 0 /\ 0 <= bitScan val < 32 /\
   Z.testbit val (bitScan val) = true /\
   forall j, 0 <= j < bitScan val -> Z.testbit val j = false).
Proof.
  intros Hval. unfold bitScan.
  destruct (bitScan_from_spec val 64 0) as [[E Hlow]|[Hr [Hset Hlow]]]; [lia| |].
  - left. split; [|exact E].
    apply Z.bits_inj'. intros j Hj. rewrite Z.bits_0.
    destruct (Z.ltb_spec j 32).
    + apply Hlow. lia.
    + rewrite <- (Z.mod_small val (2 ^ 32)) by assumption.
      apply Z.mod_pow2_bits_high. lia.
  - right. repeat split; try lia; [|exact Hset|exact Hlow].
    intros ->. rewrite Z.bits_0 in Hset. discriminate.
Qed.

(** *** Running the monad symbolically *)

Lemma since_app (s s' : LVServer.t) (evs tr : list Event) :
  since (World.mk s tr) (World.mk s' (evs ++ tr)) = rev evs.
Proof.
  unfold since. simpl. rewrite length_app.
  replace (List.length evs + List.length tr - List.length tr)%nat
    with (List.length evs + 0)%nat by lia.
  rewrite firstn_app_2. simpl. now rewrite app_nil_r.
Qed.

Lemma devCalls_app (a b : list Event) : devCalls (a ++ b) = devCalls a ++ devCalls b.
Proof.
  induction a as [|e a IH]; [reflexivity|].
  destruct e; simpl; rewrite ?IH; reflexivity.
Qed.

(* The events a trace gained over an older one, newest first. *)
Ltac prefix_of tr' tr :=
  lazymatch tr' with
  | tr => constr:(@nil Event)
  | ?e :: ?rest => let p := prefix_of rest tr in constr:(e :: p)
  | ?a ++ ?rest => let p := prefix_of rest tr in constr:(a ++ p)
  end.

Lemma since_same (s s' : LVServer.t) (tr : list Event) :
  since (World.mk s tr) (World.mk s' tr) = [].
Proof. exact (since_app s s' [] tr). Qed.

Ltac since_norm :=
  rewrite ?since_same in *;
  repeat match goal with
  | |- context [since (World.mk ?s ?tr) (World.mk ?s' ?tr')] =>
      let p := prefix_of tr' tr in
      replace tr' with (p ++ tr) by (simpl; rewrite <- ?app_assoc; reflexivity);
      rewrite (since_app s s' p tr)
  | H : context [since (World.mk ?s ?tr) (World.mk ?s' ?tr')] |- _ =>
      let p := prefix_of tr' tr in
      replace tr' with (p ++ tr) in H by (simpl; rewrite <- ?app_assoc; reflexivity);
      rewrite (since_app s s' p tr) in H
  end.

Ltac go_unfold :=
  cbv beta iota delta
    [bind ret defer emit get modify callDev Lock Unlock Sleep logf panic Fatalf
     index slice fst snd World.srv World.trace
     LVServer.dev LVServer.dummy LVServer.model LVServer.maxResolution
     LVServer.lrFPS LVServer.afInterval LVServer.Frame LVServer.info
     LVServer.newFrameChan LVServer.streamClients LVServer.controlClients
     LVServer.motionClients];
  cbn [devCalls].

Ltac go_unfold_in H :=
  cbv beta iota delta
    [bind ret defer emit get modify callDev Lock Unlock Sleep logf panic Fatalf
     index slice fst snd World.srv World.trace
     LVServer.dev LVServer.dummy LVServer.model LVServer.maxResolution
     LVServer.lrFPS LVServer.afInterval LVServer.Frame LVServer.info
     LVServer.newFrameChan LVServer.streamClients LVServer.controlClients
     LVServer.motionClients] in H;
  cbn [devCalls] in H.

(* Case analysis on the innermost scrutinee that blocks the run. *)
Ltac destruct_match :=
  match goal with
  | |- context [match ?x with _ => _ end] =>
      lazymatch x with
      | context [match _ with _ => _ end] => fail
      | _ => destruct x eqn:?
      end
  end.

(* Decide a comparison of two string literals. *)
Ltac eval_string_eqb :=
  repeat match goal with
  | |- context [String.eqb ?a ?b] =>
      let v := eval vm_compute in (String.eqb a b) in
      change (String.eqb a b) with v
  end.

(* A run that leaves the server record alone and only adds events that
   satisfy P. *)
Definition extends (P : Event -> Prop) (w w' : World.t) : Prop :=
  exists evs, w' = World.mk (World.srv w) (evs ++ World.trace w) /\ Forall P evs.

Ltac extends_done :=
  match goal with
  | |- extends _ (World.mk ?s ?tr) (World.mk ?s ?tr') =>
      let p := prefix_of tr' tr in
      exists p; split; [reflexivity | repeat constructor; try discriminate]
  end.

Section Properties.

Variable pkg : Package.t.

Definition StartLiveView_call : Event :=
  EvCall (RunTransactionWithNoParams OC_NIKON_StartLiveView).

Definition DeviceReady_call : Event :=
  EvCall (RunTransactionWithNoParams OC_NIKON_DeviceReady).

(* Neither DeviceReady nor StartLiveView. *)
Definition probe (e : Event) : Prop :=
  e <> StartLiveView_call /\ e <> DeviceReady_call.

Lemma switchRecordMedia_extends (w : World.t) :
  extends probe w (snd (switchRecordMedia pkg w)).
Proof.
  destruct w as [s tr]. unfold switchRecordMedia. go_unfold.
  repeat (destruct_match; go_unfold); extends_done; split; discriminate.
Qed.

Lemma changeResolution_extends (w : World.t) :
  extends probe w (snd (changeResolution pkg w)).
Proof.
  destruct w as [s tr]. unfold changeResolution. go_unfold.
  repeat (destruct_match; go_unfold); extends_done; split; discriminate.
Qed.

(* Replace a call to a procedure by its result and the events it added. *)
Ltac sub_call f lem :=
  match goal with
  | |- context [f pkg ?w] =>
      let r := fresh "r" in
      let w' := fresh "w" in
      let E := fresh "E" in
      let evs := fresh "evs" in
      let Hevs := fresh "Hevs" in
      let H := fresh in
      destruct (f pkg w) as [r w'] eqn:E;
      pose proof (lem w) as H; rewrite E in H; destruct H as (evs & H & Hevs);
      simpl in H; subst w'
  end.

Ltac in_events :=
  repeat match goal with
  | H : Forall _ _ |- _ => rewrite Forall_forall in H
  end;
  repeat match goal with
  | H : _ \/ _ |- _ => destruct H
  | H : False |- _ => destruct H
  | H : _ = _ |- _ => discriminate H
  | H : In ?e ?evs, H' : forall x, In x ?evs -> probe x |- _ =>
      first [ exact (proj1 (H' _ H) eq_refl) | exact (proj2 (H' _ H) eq_refl) ]
  end.

(** *** Prohibit conditions (C6) *)

(* The bits the switch of readLiveViewProhibitCondition names. *)
Definition prohibit_table : list Z :=
  [0; 2; 4; 5; 6; 7; 8; 9; 11; 12; 13; 14; 15; 16; 17; 18; 19; 20; 21; 22; 24].

Lemma prohibitReason_unknown (b : Z) :
  0 <= b -> ~ In b prohibit_table -> prohibitReason b = "unknown reason".
Proof.
  intros Hb Hn. destruct b as [|p|p]; [exfalso; apply Hn; simpl; tauto| |lia].
  do 5 (try destruct p as [p|p|]); try reflexivity; exfalso; apply Hn; simpl; tauto.
Qed.

Lemma startLiveView_reason (w : World.t) (d : Device) (c bitmap : Z) :
  LVServer.dev (World.srv w) = Some d ->
  (forall h, DevReply.err (d h (RunTransactionWithNoParams OC_NIKON_StartLiveView))
             = Some (RCError c)) ->
  uint16 c = Package.RC_NIKON_InvalidStatus pkg ->
  (forall h, DevReply.err (d h (GetDevicePropValue DPC_NIKON_LiveViewProhibitCondition))
             = None) ->
  (forall h, DevReply.value (d h (GetDevicePropValue DPC_NIKON_LiveViewProhibitCondition))
             = bitmap) ->
  In StartLiveView_call (since w (snd (startLiveView pkg w))) ->
  fst (startLiveView pkg w) =
    Ret (Some (errorString ("failed to start live view, reason: "
                              ++ prohibitReason (bitScan (uint32 bitmap)))%string))
  /\ In (EvCall (GetDevicePropValue DPC_NIKON_LiveViewProhibitCondition))
        (since w (snd (startLiveView pkg w))).
Proof.
  intros Hdev Hstart Hc Hperr Hpval.
  destruct w as [s tr]. destruct s. simpl in Hdev. subst dev.
  unfold StartLiveView_call, startLiveView, readLiveViewProhibitCondition, is_RC.
  go_unfold.
  repeat (first [ sub_call switchRecordMedia switchRecordMedia_extends
                | sub_call changeResolution changeResolution_extends
                | destruct_match ];
          go_unfold;
          repeat (progress (rewrite ?Hstart, ?Hperr, ?Hpval, ?Hc, ?Z.eqb_refl); go_unfold)).
  all: since_norm; rewrite <- !in_rev; simpl; rewrite ?in_app_iff; simpl; intros Hin.
  all: try (split; [reflexivity | tauto]).
  all: exfalso; in_events.
Qed.

(** C6: when StartLiveView fails with InvalidStatus, startLiveView reads
    the prohibit-condition bitmap and returns the reason of its lowest set
    bit as the error: "(empty)" for an all-zero bitmap, a message that
    contains "insufficient battery" for bit 8, "no card inserted" for bit
    14, "unknown reason" for a bit the table does not list; bitScan is -1
    on zero and the index of the lowest set bit of the 32-bit value
    otherwise. *)
Theorem startLiveView_prohibit_condition (w : World.t) (d : Device) (c bitmap : Z) :
  LVServer.dev (World.srv w) = Some d ->
  (forall h, DevReply.err (d h (RunTransactionWithNoParams OC_NIKON_StartLiveView))
             = Some (RCError c)) ->
  uint16 c = Package.RC_NIKON_InvalidStatus pkg ->
  (forall h, DevReply.err (d h (GetDevicePropValue DPC_NIKON_LiveViewProhibitCondition))
             = None) ->
  (forall h, DevReply.value (d h (GetDevicePropValue DPC_NIKON_LiveViewProhibitCondition))
             = bitmap) ->
  In StartLiveView_call (since w (snd (startLiveView pkg w))) ->
  let val := uint32 bitmap in
  let bit := bitScan val in
  let reason := prohibitReason bit in
  In (EvCall (GetDevicePropValue DPC_NIKON_LiveViewProhibitCondition))
     (since w (snd (startLiveView pkg w)))
  /\ fst (startLiveView pkg w) =
       Ret (Some (errorString ("failed to start live view, reason: " ++ reason)%string))
  /\ ((val = 0 /\ bit = -1)
      \/ (val <> 0 /\ 0 <= bit < 32 /\ Z.testbit val bit = true /\
          forall j, 0 <= j < bit -> Z.testbit val j = false))
  /\ (val = 0 -> reason = "(empty)")
  /\ (bit = 8 -> contains reason "insufficient battery")
  /\ (bit = 14 -> reason = "no card inserted")
  /\ (0 <= bit -> ~ In bit prohibit_table -> reason = "unknown reason").
Proof.
  intros Hdev Hstart Hc Hperr Hpval Hin val bit reason.
  destruct (startLiveView_reason w d c bitmap Hdev Hstart Hc Hperr Hpval Hin) as [Hres Hread].
  split; [exact Hread|]. split; [exact Hres|].
  split.
  - destruct (bitScan_lowest val (uint32_range bitmap)) as [[Hz Hb]|(Hnz & Hb & Hset & Hlow)].
    + left. split; assumption.
    + right. repeat split; try assumption; apply Hb.
  - repeat split.
    + intros Hz. subst reason bit. rewrite Hz. reflexivity.
    + intros Hb. subst reason. rewrite Hb. exists "", "". reflexivity.
    + intros Hb. subst reason. rewrite Hb. reflexivity.
    + intros Hb Hn. apply prohibitReason_unknown; assumption.
Qed.

(** *** Resolution (C7, C10) *)

Lemma assert_uint64s_length (values : list DataValue) :
  forall acc choices,
    assert_uint64s values acc = Some choices ->
    List.length choices = (List.length acc + List.length values)%nat.
Proof.
  induction values as [|v values IH]; intros acc choices H; simpl in H.
  - inversion H. simpl. lia.
  - destruct v; try discriminate.
    apply IH in H. rewrite length_app in H. simpl in *. lia.
Qed.

Lemma assert_uint64s_all (choices : list Z) :
  forall acc, assert_uint64s (map VUint64 choices) acc = Some (acc ++ choices).
Proof.
  induction choices as [|v choices IH]; intros acc; simpl.
  - now rewrite app_nil_r.
  - rewrite IH, <- app_assoc. reflexivity.
Qed.

Lemma nth_last (choices : list Z) :
  nth (Z.to_nat (Z.of_nat (List.length choices) - 1)) choices 0 = last choices 0.
Proof.
  destruct choices as [|v choices]; [reflexivity|].
  replace (Z.to_nat (Z.of_nat (List.length (v :: choices)) - 1)) with (List.length choices)
    by (simpl List.length; lia).
  revert v. induction choices as [|v' choices IH]; intros v; [reflexivity|].
  simpl List.length. change (last (v :: v' :: choices) 0) with (last (v' :: choices) 0).
  rewrite <- IH. reflexivity.
Qed.

(* The payload changeResolution writes for a raw value. *)
Definition resolution_payload (ty : ResolutionType) (v : Z) : Payload :=
  match ty with
  | ResolutionType8 => Payload8 (uint8 v)
  | ResolutionType64 => Payload64 (uint64 v)
  end.

Lemma index_last_ok (choices : list Z) :
  choices <> [] ->
  (0 <=? Z.of_nat (List.length choices) - 1)
  && (Z.of_nat (List.length choices) - 1 <? Z.of_nat (List.length choices)) = true.
Proof.
  intros Hne. destruct choices; [congruence|]. simpl List.length.
  apply andb_true_iff. split; [apply Z.leb_le|apply Z.ltb_lt]; lia.
Qed.

(* changeResolution writes the last enumerated value, at the model's
   width. *)
Lemma changeResolution_writes_last (w : World.t) (d : Device) (choices : list Z) :
  LVServer.dev (World.srv w) = Some d ->
  let r := d (devCalls (World.trace w)) (GetDevicePropDesc DPC_NIKON_Resolution) in
  DevReply.err r = None ->
  DevicePropDesc.Form (DevReply.desc r) = PropDescEnumForm (map VUint64 choices) ->
  choices <> [] ->
  devCalls (since w (snd (changeResolution pkg w))) =
    [GetDevicePropDesc DPC_NIKON_Resolution;
     SetDevicePropValue DPC_NIKON_Resolution
       (resolution_payload (Model.ResolutionType_ (LVServer.model (World.srv w)))
          (last choices 0))].
Proof.
  intros Hdev r Herr Hform Hne. subst r.
  destruct w as [s tr]. destruct s. simpl in *. subst dev.
  unfold changeResolution. go_unfold.
  rewrite Herr, Hform, (assert_uint64s_all choices []). go_unfold. cbn [app].
  rewrite (index_last_ok choices Hne), nth_last. go_unfold.
  destruct (Model.ResolutionType_ model); go_unfold;
    rewrite ?(index_last_ok choices Hne), ?nth_last; go_unfold;
    repeat (destruct_match; go_unfold); since_norm; reflexivity.
Qed.

Ltac settle_cases :=
  repeat split; intros;
  repeat match goal with
  | H : exists _, _ |- _ => destruct H
  | H : _ /\ _ |- _ => destruct H
  end;
  try discriminate; try congruence; try (eexists; reflexivity).

(** C10: with a Resolution descriptor read without error, changeResolution
    panics exactly when the enum form's Values sequence is empty (it
    indexes choices at len(choices)-1, out of range there); with a
    non-empty sequence it returns. *)
Theorem changeResolution_panics_iff_empty (w : World.t) (d : Device) :
  LVServer.dev (World.srv w) = Some d ->
  let r := d (devCalls (World.trace w)) (GetDevicePropDesc DPC_NIKON_Resolution) in
  ((exists msg, fst (changeResolution pkg w) = Panic msg) <->
   (DevReply.err r = None /\
    DevicePropDesc.Form (DevReply.desc r) = PropDescEnumForm []))
  /\ ((DevReply.err r = None /\
       DevicePropDesc.Form (DevReply.desc r) = PropDescEnumForm []) ->
      fst (changeResolution pkg w) = Panic "index out of range")
  /\ (forall values,
        DevicePropDesc.Form (DevReply.desc r) = PropDescEnumForm values ->
        values <> [] ->
        exists e, fst (changeResolution pkg w) = Ret e).
Proof.
  intros Hdev r. subst r.
  destruct w as [s tr]. destruct s. simpl in Hdev. subst dev.
  unfold changeResolution. go_unfold.
  destruct (DevReply.err _) eqn:Herr; go_unfold; [settle_cases|].
  destruct (DevicePropDesc.Form _) as [values|] eqn:Hform; go_unfold; [|settle_cases].
  destruct values as [|v values]; [simpl; go_unfold; settle_cases|].
  destruct (assert_uint64s (v :: values) []) as [choices|] eqn:Hchoices; go_unfold;
    [|settle_cases].
  apply assert_uint64s_length in Hchoices. simpl in Hchoices.
  assert (Hne : choices <> []) by (intros ->; simpl in Hchoices; lia).
  rewrite (index_last_ok choices Hne). go_unfold.
  destruct (Model.ResolutionType_ model); go_unfold;
    repeat (destruct_match; go_unfold); settle_cases.
Qed.

(** *** The live-view reply (C1, C2) *)

(* raw[i], for reading the wire layout off a buffer *)
Definition byte_at (raw : list Byte.byte) (i : nat) : Byte.byte := nth i raw Byte.x00.

(* The fields of the header at their offsets in the reply: the layout of
   the wire format, bytes 8 to 68. *)
Definition header_at (raw : list Byte.byte) : liveViewRaw.t :=
  liveViewRaw.mk
    (be_int16 (byte_at raw 8) (byte_at raw 9))
    (be_int16 (byte_at raw 10) (byte_at raw 11))
    (be_int16 (byte_at raw 12) (byte_at raw 13))
    (be_int16 (byte_at raw 14) (byte_at raw 15))
    (be_int16 (byte_at raw 24) (byte_at raw 25))
    (be_int16 (byte_at raw 26) (byte_at raw 27))
    (be_int16 (byte_at raw 28) (byte_at raw 29))
    (be_int16 (byte_at raw 30) (byte_at raw 31))
    (be_int8 (byte_at raw 37))
    (be_int8 (byte_at raw 48))
    (be_int16 (byte_at raw 64) (byte_at raw 65))
    (be_int16 (byte_at raw 66) (byte_at raw 67))
    (be_int8 (byte_at raw 68)).

(* binary.Read consumes the 61 bytes of liveViewRaw and ignores the rest
   of raw[8:hs]. *)
Lemma binary_Read_header (raw : list Byte.byte) (n : nat) :
  (61 <= n)%nat -> (8 + n <= List.length raw)%nat ->
  binary_Read (firstn n (skipn 8 raw)) = Some (header_at raw).
Proof.
  intros Hn Hlen.
  do 69 (destruct raw as [|? raw]; [simpl in Hlen; lia|]).
  do 61 (destruct n as [|n]; [lia|]).
  reflexivity.
Qed.

(* A shorter header makes binary.Read fail. *)
Lemma binary_Read_short (bs : list Byte.byte) :
  (List.length bs < 61)%nat -> binary_Read bs = None.
Proof.
  intros Hlen.
  do 61 (destruct bs as [|? bs]; [reflexivity|]).
  simpl in Hlen. lia.
Qed.

(* The tables of the wire format: Rotation 0, 1, 2, 3 and AutoFocus 0, 1, 2. *)
Definition rotation_table (b : Z) : Rotation :=
  match b with
  | 0 => Rotation0
  | 1 => RotationMinus90
  | 2 => Rotation90
  | 3 => Rotation180
  | _ => Rotation0
  end.

Definition autofocus_table (b : Z) : AF :=
  match b with
  | 0 => AFNotActive
  | 1 => AFFail
  | 2 => AFSuccess
  | _ => AFNotActive
  end.

Lemma rotation_of_table (b : Z) : rotation_of b = rotation_table b.
Proof.
  unfold rotation_of.
  destruct (Z.eqb_spec b 1) as [->|H1]; [reflexivity|].
  destruct (Z.eqb_spec b 2) as [->|H2]; [reflexivity|].
  destruct (Z.eqb_spec b 3) as [->|H3]; [reflexivity|].
  destruct b as [|p|p]; try reflexivity.
  do 2 (try destruct p as [p|p|]); try reflexivity; congruence.
Qed.

Lemma af_of_table (b : Z) : af_of b = autofocus_table b.
Proof.
  unfold af_of.
  destruct (Z.eqb_spec b 1) as [->|H1]; [reflexivity|].
  destruct (Z.eqb_spec b 2) as [->|H2]; [reflexivity|].
  destruct b as [|p|p]; try reflexivity.
  do 2 (try destruct p as [p|p|]); try reflexivity; congruence.
Qed.

(** C1: for a reply longer than HeaderSize (a header that holds the 8-byte
    preamble and the 61 bytes of liveViewRaw), getLiveViewImgInner returns
    the fields read big-endian at their offsets from byte 8, the bytes from
    HeaderSize on as the JPEG, Rotation 0, 1, 2, 3 as 0, -90, +90, 180
    degrees (anything else 0) and AutoFocus 0, 1, 2 as NotActive, Fail,
    Success. *)
Theorem getLiveViewImgInner_parses (w : World.t) (d : Device) :
  LVServer.dev (World.srv w) = Some d ->
  let hs := Model.HeaderSize (LVServer.model (World.srv w)) in
  let r := d (devCalls (World.trace w)) (RunTransaction OC_NIKON_GetLiveViewImg []) in
  let raw := DevReply.data r in
  DevReply.err r = None ->
  69 <= hs ->
  hs < Z.of_nat (List.length raw) ->
  fst (getLiveViewImgInner pkg w) =
    Ret (LiveView.mk
           (be_int16 (byte_at raw 8) (byte_at raw 9))
           (be_int16 (byte_at raw 10) (byte_at raw 11))
           (be_int16 (byte_at raw 12) (byte_at raw 13))
           (be_int16 (byte_at raw 14) (byte_at raw 15))
           (be_int16 (byte_at raw 24) (byte_at raw 25))
           (be_int16 (byte_at raw 26) (byte_at raw 27))
           (be_int16 (byte_at raw 28) (byte_at raw 29))
           (be_int16 (byte_at raw 30) (byte_at raw 31))
           (rotation_table (be_int8 (byte_at raw 37)))
           (autofocus_table (be_int8 (byte_at raw 48)))
           (be_int8 (byte_at raw 68) =? 1)
           (skipn (Z.to_nat hs) raw),
         None).
Proof.
  intros Hdev hs r raw Herr Hhs Hlen. subst hs r raw.
  destruct w as [s tr]. destruct s. simpl in *. subst dev.
  unfold getLiveViewImgInner. go_unfold. rewrite Herr.
  set (raw := DevReply.data _) in *.
  set (hs := Model.HeaderSize model) in *.
  replace (Z.of_nat (List.length raw) <=? hs) with false by (symmetry; apply Z.leb_gt; lia).
  replace ((0 <=? 8) && (8 <=? hs) && (hs <=? Z.of_nat (List.length raw))) with true
    by (symmetry; rewrite !andb_true_iff; repeat split; apply Z.leb_le; lia).
  go_unfold.
  change (Z.to_nat 8) with 8%nat.
  rewrite (binary_Read_header raw (Z.to_nat (hs - 8))) by lia.
  replace ((0 <=? hs) && (hs <=? Z.of_nat (List.length raw))
           && (Z.of_nat (List.length raw) <=? Z.of_nat (List.length raw))) with true
    by (symmetry; rewrite !andb_true_iff; repeat split; apply Z.leb_le; lia).
  go_unfold.
  rewrite firstn_all2 by (rewrite length_skipn; lia).
  rewrite rotation_of_table, af_of_table. reflexivity.
Qed.

(** C2: a capture whose reply is no longer than HeaderSize makes
    getLiveViewImgInner return the insufficient-length error; the captor
    then publishes nothing (the server record is unchanged and no
    new-frame notification is sent), warns, sleeps one second and goes on
    with its loop. *)
Theorem insufficient_length_drops_frame (w : World.t) (d : Device) :
  LVServer.dev (World.srv w) = Some d ->
  LVServer.dummy (World.srv w) = false ->
  let hs := Model.HeaderSize (LVServer.model (World.srv w)) in
  let fps := LVServer.lrFPS (World.srv w) in
  let r := d (devCalls (World.trace w)) (RunTransaction OC_NIKON_GetLiveViewImg []) in
  DevReply.err r = None ->
  Z.of_nat (List.length (DevReply.data r)) <= hs ->
  let insufficient := "failed to obtain an image: the data has insufficient length" in
  fst (getLiveViewImgInner pkg w) = Ret (LiveView.zero, Some (errorString insufficient))
  /\ fst (frameCaptorSakura_body pkg false w) = Ret Continue
  /\ World.srv (snd (frameCaptorSakura_body pkg false w)) = World.srv w
  /\ since w (snd (frameCaptorSakura_body pkg false w)) =
       (if 0 <? fps then [EvSleep (UntilNextSlot fps)] else [])
       ++ [EvLock mtpLock;
           EvCall (RunTransaction OC_NIKON_GetLiveViewImg []);
           EvUnlock mtpLock;
           EvLog LvWarning "frameCaptor: %s" [ArgStr insufficient];
           EvSleep (Milliseconds 1000)].
Proof.
  intros Hdev Hdummy hs fps r Herr Hlen insufficient. subst hs fps r insufficient.
  destruct w as [s tr]. destruct s. simpl in *. subst dev dummy.
  apply Z.leb_le in Hlen.
  unfold frameCaptorSakura_body, getLiveViewImg, getLiveViewImgInner. go_unfold.
  rewrite Herr, Hlen. go_unfold.
  split; [reflexivity|].
  destruct (0 <? lrFPS); go_unfold; rewrite Herr, Hlen; go_unfold; cbn [Error];
    eval_string_eqb; go_unfold;
    (split; [reflexivity|split; [reflexivity|since_norm; reflexivity]]).
Qed.

(** *** setFN (C3) *)

(** C3: with a device attached and fn parsed to the float fnf, setFN
    issues EndLiveView, SetDevicePropValue(FNumber, uint16(fnf * 100)) and
    StartLiveView in this order and nothing else; the first call that
    fails ends the sequence and its error is returned; an InvalidStatus
    from the restart is reported with the battery hint. *)
Theorem setFN_sequence (w : World.t) (d : Device) (fn : string) (fnf : float) :
  LVServer.dev (World.srv w) = Some d ->
  LVServer.dummy (World.srv w) = false ->
  Package.ParseFloat pkg fn = (fnf, None) ->
  let h := devCalls (World.trace w) in
  let c1 := RunTransactionWithNoParams OC_NIKON_EndLiveView in
  let c2 := SetDevicePropValue DPC_FNumber
              (Payload16 (uint16_of_float pkg (PrimFloat.mul fnf float_100))) in
  let c3 := RunTransactionWithNoParams OC_NIKON_StartLiveView in
  let result := fst (setFN pkg fn w) in
  let calls := devCalls (since w (snd (setFN pkg fn w))) in
  match DevReply.err (d h c1), DevReply.err (d (c1 :: h) c2),
        DevReply.err (d (c2 :: c1 :: h) c3) with
  | Some e, _, _ =>
      calls = [c1] /\
      result = Ret (Some (Errorf pkg "failed to set f-number: failed to stop live view: " e))
  | None, Some e, _ =>
      calls = [c1; c2] /\
      result = Ret (Some (Errorf pkg "failed to set f-number: " e))
  | None, None, Some e =>
      calls = [c1; c2; c3] /\
      exists msg, result = Ret (Some (errorString msg)) /\
        (is_RC e (Package.RC_NIKON_InvalidStatus pkg) = true ->
         contains msg "battery level is low")
  | None, None, None =>
      calls = [c1; c2; c3] /\ result = Ret None
  end.
Proof.
  intros Hdev Hdummy Hparse h c1 c2 c3 result calls. subst h c1 c2 c3 result calls.
  destruct w as [s tr]. destruct s. simpl in Hdev, Hdummy. subst dev dummy.
  unfold setFN. go_unfold. rewrite Hparse. go_unfold.
  destruct (DevReply.err (d (devCalls tr) _)) eqn:E1; go_unfold.
  { since_norm. split; reflexivity. }
  destruct (DevReply.err (d (_ :: devCalls tr) _)) eqn:E2; go_unfold.
  { since_norm. split; reflexivity. }
  destruct (DevReply.err (d (_ :: _ :: devCalls tr) _)) eqn:E3; go_unfold.
  2:{ since_norm. split; reflexivity. }
  destruct (is_RC e (Package.RC_NIKON_InvalidStatus pkg)) eqn:Erc; go_unfold.
  - since_norm. split; [reflexivity|]. eexists. split; [reflexivity|].
    intros _.
    exists "failed to set f-number: failed to start live view: InvalidStatus (", "?)".
    reflexivity.
  - since_norm. split; [reflexivity|]. eexists. split; [reflexivity|].
    intros H. discriminate.
Qed.

(** *** The live-view status and the lifecycle worker (C5) *)

(* startLiveView leaves the server record alone and begins with
   DeviceReady. *)
Lemma startLiveView_extends (w : World.t) (d : Device) :
  LVServer.dev (World.srv w) = Some d ->
  exists evs,
    snd (startLiveView pkg w) = World.mk (World.srv w) (evs ++ World.trace w)
    /\ In DeviceReady_call evs.
Proof.
  intros Hdev. destruct w as [s tr]. destruct s. simpl in Hdev. subst dev.
  unfold startLiveView, readLiveViewProhibitCondition. go_unfold.
  repeat (first [ sub_call switchRecordMedia switchRecordMedia_extends
                | sub_call changeResolution changeResolution_extends
                | destruct_match ];
          go_unfold).
  all: match goal with
       | |- exists evs, World.mk ?s ?tr' = World.mk ?s (evs ++ ?tr) /\ _ =>
           let p := prefix_of tr' tr in
           exists p; split;
           [ simpl; rewrite <- ?app_assoc; reflexivity
           | unfold DeviceReady_call; rewrite ?in_app_iff; simpl; rewrite ?in_app_iff; simpl; tauto ]
       end.
Qed.

Definition LiveViewStatus_call : Event := EvCall (GetDevicePropValue DPC_NIKON_LiveViewStatus).

(** C5: getLiveViewStatusInner reports "on" exactly when the read of
    LiveViewStatus returns io.EOF, "off" when it succeeds, and hands any
    other error back; on such an error the lifecycle worker logs it and
    ends the tick; startLiveView runs (its DeviceReady call is issued) only
    on a tick whose status was read as off. *)
Theorem liveViewStatus_on_iff_EOF (w : World.t) (d : Device) :
  LVServer.dev (World.srv w) = Some d ->
  LVServer.dummy (World.srv w) = false ->
  let r := DevReply.err (d (devCalls (World.trace w))
                           (GetDevicePropValue DPC_NIKON_LiveViewStatus)) in
  let tick := workerLV_body pkg false w in
  (* the status *)
  ((exists e, fst (getLiveViewStatusInner w) = Ret (e, true)) <-> r = Some io_EOF)
  /\ (fst (getLiveViewStatus pkg w) = Ret (true, None) <-> r = Some io_EOF)
  /\ (r = None ->
      fst (getLiveViewStatusInner w) = Ret (None, false) /\
      fst (getLiveViewStatus pkg w) = Ret (false, None))
  /\ (forall e, r = Some e -> e <> io_EOF ->
      fst (getLiveViewStatusInner w) = Ret (Some e, false) /\
      fst (getLiveViewStatus pkg w) =
        Ret (false, Some (Errorf pkg "failed to get live view status: " e)))
  (* the worker's tick *)
  /\ (r = Some io_EOF ->
      fst tick = Ret Continue /\
      since w (snd tick) = [EvLock mtpLock; LiveViewStatus_call; EvUnlock mtpLock])
  /\ (forall e, r = Some e -> e <> io_EOF ->
      fst tick = Ret Continue /\
      since w (snd tick) =
        [EvLock mtpLock; LiveViewStatus_call; EvUnlock mtpLock;
         EvLog LvWarning "workerLV: %s"
           [ArgStr ("failed to get live view status: " ++ Error pkg e)%string]])
  /\ (r = None ->
      let w1 := World.mk (World.srv w)
                  (EvUnlock mtpLock :: LiveViewStatus_call :: EvLock mtpLock :: World.trace w) in
      fst tick =
        match fst (startLiveView pkg w1) with
        | Ret _ => Ret Continue
        | Panic msg => Panic msg
        | Exit => Exit
        end /\
      snd tick =
        match fst (startLiveView pkg w1) with
        | Ret (Some e) =>
            World.mk (World.srv (snd (startLiveView pkg w1)))
              (EvLog LvWarning "workerLV: %s" [ArgStr (Error pkg e)]
               :: World.trace (snd (startLiveView pkg w1)))
        | _ => snd (startLiveView pkg w1)
        end)
  /\ (In DeviceReady_call (since w (snd tick)) <-> r = None).
Proof.
  intros Hdev Hdummy r tick. subst r tick.
  destruct w as [s tr]. destruct s. simpl in Hdev, Hdummy. subst dev dummy.
  unfold workerLV_body, getLiveViewStatus, getLiveViewStatusInner, LiveViewStatus_call.
  go_unfold.
  destruct (DevReply.err _) as [e|] eqn:Er; [destruct e|];
    cbn [fails_not_EOF is_EOF]; go_unfold.
  - (* io.EOF *)
    repeat split; intros; try discriminate; try congruence; try (eexists; reflexivity).
    + since_norm. reflexivity.
    + since_norm. simpl in H. unfold DeviceReady_call in H. exfalso. in_events.
  - (* a response code *)
    repeat split; intros;
      repeat match goal with H : exists _, _ |- _ => destruct H end;
      try discriminate; try congruence.
    + since_norm. inversion H. reflexivity.
    + since_norm. simpl in H. unfold DeviceReady_call in H. exfalso. in_events.
  - (* another error *)
    repeat split; intros;
      repeat match goal with H : exists _, _ |- _ => destruct H end;
      try discriminate; try congruence.
    + since_norm. inversion H. reflexivity.
    + since_norm. simpl in H. unfold DeviceReady_call in H. exfalso. in_events.
  - (* read without error: off *)
    match goal with
    | |- context [startLiveView pkg ?w1] =>
        destruct (startLiveView_extends w1 d eq_refl) as (evs & Hw & Hin);
        destruct (startLiveView pkg w1) as [res w1'] eqn:Estart
    end.
    simpl in Hw. subst w1'.
    repeat split; intros;
      repeat match goal with H : exists _, _ |- _ => destruct H end;
      try discriminate; try congruence.
    + destruct res as [[e|]| |]; reflexivity.
    + destruct res as [[e|]| |]; reflexivity.
    + destruct res as [[e|]| |]; go_unfold; since_norm; rewrite <- in_rev;
        simpl; rewrite ?in_app_iff; tauto.
Qed.

(** *** The control endpoint (C4) *)

Inductive Field : Type := F_AFInterval | F_AFFocusNow | F_LRFPS | F_ISO | F_FN.

Definition one_of (s : string) (l : list string) : bool := existsb (String.eqb s) l.

(* The field of a control message an event comes from, read off its log
   line or its effect; mutex operations come from several. *)
Definition field_of_event (e : Event) : option Field :=
  match e with
  | EvTickerStart | EvTickerStop | EvTickerSetInterval _ | EvStoreAFInterval _ =>
      Some F_AFInterval
  | EvTrySendAFNow => Some F_AFFocusNow
  | EvStoreLRFPS _ => Some F_LRFPS
  | EvCall (SetDevicePropValue DPC_ExposureIndex _) => Some F_ISO
  | EvCall (SetDevicePropValue DPC_FNumber _)
  | EvCall (RunTransactionWithNoParams OC_NIKON_EndLiveView)
  | EvCall (RunTransactionWithNoParams OC_NIKON_StartLiveView) => Some F_FN
  | EvLog _ format _ =>
      if one_of format ["HandleControl: enable AF"; "HandleControl: disable AF";
                        "HandleControl: set AF interval: %d"] then Some F_AFInterval
      else if one_of format ["HandleControl: focus now"] then Some F_AFFocusNow
      else if one_of format ["HandleControl: set rate limit: %d";
                             "HandleControl: disable rate limit"] then Some F_LRFPS
      else if one_of format ["HandleControl: set ISO: %d";
                             "HandleControl: failed to set ISO: %s"] then Some F_ISO
      else if one_of format ["HandleControl: set f-number: %s";
                             "HandleControl: failed to set f-number: %s"] then Some F_FN
      else None
  | _ => None
  end.

(* An event of field f, or of no field in particular. *)
Definition belongs (f : Field) (e : Event) : Prop :=
  field_of_event e = None \/ field_of_event e = Some f.

(* The AF interval field asks to stop: present and not positive. *)
Definition stops_AF (p : ControlPayload.t) : bool :=
  match ControlPayload.AFInterval p with
  | Some af => negb (0 <? af)
  | None => false
  end.

(* The five if-blocks of the loop body, for reasoning about one at a
   time. *)
Definition control_AFInterval (p : ControlPayload.t) : M bool :=
  match ControlPayload.AFInterval p with
  | Some af =>
      HandleControl_setInfo (Some af) None ;;;
      if 0 <? af then
        logf LvDebug "HandleControl: enable AF" [] ;;;
        emit EvTickerStart ;;;
        modify (set_afInterval af) ;;;
        emit (EvStoreAFInterval af) ;;;
        emit (EvTickerSetInterval (seconds af)) ;;;
        logf LvDebug "HandleControl: set AF interval: %d" [ArgInt af] ;;;
        ret true
      else
        logf LvDebug "HandleControl: disable AF" [] ;;;
        emit EvTickerStop ;;;
        ret false
  | None => ret true
  end.

Definition control_AFFocusNow (p : ControlPayload.t) : M unit :=
  match ControlPayload.AFFocusNow p with
  | Some true =>
      logf LvDebug "HandleControl: focus now" [] ;;;
      emit EvTrySendAFNow
  | _ => ret tt
  end.

Definition control_LRFPS (p : ControlPayload.t) : M unit :=
  match ControlPayload.LRFPS p with
  | Some lr =>
      HandleControl_setInfo None (Some lr) ;;;
      (if 0 <? lr then logf LvDebug "HandleControl: set rate limit: %d" [ArgInt lr]
       else logf LvDebug "HandleControl: disable rate limit" []) ;;;
      modify (set_lrFPS lr) ;;;
      emit (EvStoreLRFPS lr)
  | None => ret tt
  end.

Definition control_ISO (p : ControlPayload.t) : M unit :=
  match ControlPayload.ISO p with
  | Some iso =>
      logf LvDebug "HandleControl: set ISO: %d" [ArgInt iso] ;;;
      e <- setISO pkg iso ;;
      match e with
      | Some e' => logf LvError "HandleControl: failed to set ISO: %s" [ArgStr (Error pkg e')]
      | None => ret tt
      end
  | None => ret tt
  end.

Definition control_FN (p : ControlPayload.t) : M unit :=
  match ControlPayload.FN p with
  | Some fn =>
      logf LvDebug "HandleControl: set f-number: %s" [ArgStr fn] ;;;
      e <- setFN pkg fn ;;
      match e with
      | Some e' => logf LvError "HandleControl: failed to set f-number: %s" [ArgStr (Error pkg e')]
      | None => ret tt
      end
  | None => ret tt
  end.

Lemma HandleControl_message_blocks (p : ControlPayload.t) :
  HandleControl_message pkg p =
    (go_on <- control_AFInterval p ;;
     if negb go_on then ret tt
     else control_AFFocusNow p ;;; control_LRFPS p ;;; control_ISO p ;;; control_FN p).
Proof. reflexivity. Qed.

(* A device is attached unless the server is a dummy. *)
Definition attached (s : LVServer.t) : Prop :=
  LVServer.dummy s = true \/ LVServer.dev s <> None.

(* The trace of w' is that of w with the events since w put in front. *)
Definition grows (w w' : World.t) : Prop :=
  World.trace w' = rev (since w w') ++ World.trace w.

Lemma since_prefix (w w' : World.t) (nf : list Event) :
  World.trace w' = nf ++ World.trace w -> since w w' = rev nf.
Proof.
  intros H. destruct w as [s tr], w' as [s' tr']. simpl in H. subst tr'.
  apply since_app.
Qed.

Lemma grows_trans (w w1 w2 : World.t) :
  grows w w1 -> grows w1 w2 ->
  grows w w2 /\ since w w2 = since w w1 ++ since w1 w2.
Proof.
  unfold grows. intros H1 H2.
  assert (H : World.trace w2 = (rev (since w1 w2) ++ rev (since w w1)) ++ World.trace w).
  { rewrite H2, H1 at 1. now rewrite app_assoc. }
  pose proof (since_prefix w w2 _ H) as Hs.
  rewrite rev_app_distr, !rev_involutive in Hs.
  split; [|exact Hs].
  rewrite Hs, rev_app_distr. exact H.
Qed.

Lemma grows_refl (w : World.t) : grows w w /\ since w w = [].
Proof.
  assert (H : since w w = []) by (apply (since_prefix w w []); reflexivity).
  split; [|exact H]. unfold grows. rewrite H. reflexivity.
Qed.

(* One block's run: it returns, the events it adds are of field f, and it
   keeps what the other blocks rely on. *)
Definition block_run {A} (m : M A) (w : World.t) (f : Field) (a : A) (w' : World.t) : Prop :=
  m w = (Ret a, w')
  /\ grows w w'
  /\ Forall (belongs f) (since w w')
  /\ LVServer.dummy (World.srv w') = LVServer.dummy (World.srv w)
  /\ LVServer.dev (World.srv w') = LVServer.dev (World.srv w).

Ltac block_done :=
  unfold block_run, grows; go_unfold;
  split; [reflexivity|];
  since_norm;
  split; [rewrite ?rev_involutive; reflexivity|];
  split; [simpl; repeat (apply Forall_cons; [first [left; reflexivity | right; reflexivity]|]);
          apply Forall_nil|];
  split; reflexivity.

Lemma control_AFInterval_run (p : ControlPayload.t) (w : World.t) :
  exists go w',
    block_run (control_AFInterval p) w F_AFInterval go w'
    /\ go = negb (stops_AF p)
    /\ (since w w' = [] <-> ControlPayload.AFInterval p = None)
    /\ (forall af, ControlPayload.AFInterval p = Some af -> af <= 0 ->
        since w w' = [EvLock infoLock; EvUnlock infoLock;
                      EvLog LvDebug "HandleControl: disable AF" []; EvTickerStop]
        /\ World.srv w' = set_info (info_set_AF af (LVServer.info (World.srv w))) (World.srv w))
    /\ (forall af, ControlPayload.AFInterval p = Some af -> 0 < af ->
        since w w' = [EvLock infoLock; EvUnlock infoLock;
                      EvLog LvDebug "HandleControl: enable AF" [];
                      EvTickerStart; EvStoreAFInterval af; EvTickerSetInterval (seconds af);
                      EvLog LvDebug "HandleControl: set AF interval: %d" [ArgInt af]]
        /\ LVServer.afInterval (World.srv w') = af
        /\ InfoPayload.AF (LVServer.info (World.srv w')) = af).
Proof.
  destruct w as [s tr]. destruct s. destruct info.
  unfold control_AFInterval, stops_AF, HandleControl_setInfo.
  destruct (ControlPayload.AFInterval p) as [af|];
    [destruct (Z.ltb_spec 0 af)|];
    do 2 eexists; (split; [block_done|]); since_norm;
    repeat split; intros; try discriminate;
    try match goal with H : Some _ = Some _ |- _ => inversion H; subst end;
    try lia; reflexivity.
Qed.

(* What the blocks after the first leave alone. *)
Definition keeps_AF (w w' : World.t) : Prop :=
  LVServer.afInterval (World.srv w') = LVServer.afInterval (World.srv w)
  /\ InfoPayload.AF (LVServer.info (World.srv w')) = InfoPayload.AF (LVServer.info (World.srv w)).

Lemma control_AFFocusNow_run (p : ControlPayload.t) (w : World.t) :
  exists w',
    block_run (control_AFFocusNow p) w F_AFFocusNow tt w'
    /\ keeps_AF w w'
    /\ (since w w' = [] <-> ControlPayload.AFFocusNow p <> Some true).
Proof.
  destruct w as [s tr]. destruct s.
  unfold control_AFFocusNow, keeps_AF.
  destruct (ControlPayload.AFFocusNow p) as [[|]|];
    eexists; (split; [block_done|]); since_norm;
    repeat split; intros; try discriminate; try congruence.
Qed.

Lemma control_LRFPS_run (p : ControlPayload.t) (w : World.t) :
  exists w',
    block_run (control_LRFPS p) w F_LRFPS tt w'
    /\ keeps_AF w w'
    /\ (since w w' = [] <-> ControlPayload.LRFPS p = None).
Proof.
  destruct w as [s tr]. destruct s. destruct info.
  unfold control_LRFPS, keeps_AF, HandleControl_setInfo.
  destruct (ControlPayload.LRFPS p) as [lr|]; [destruct (0 <? lr)|];
    eexists; (split; [block_done|]); since_norm;
    repeat split; intros; try discriminate; try congruence.
Qed.

Lemma control_ISO_run (p : ControlPayload.t) (w : World.t) :
  attached (World.srv w) ->
  exists w',
    block_run (control_ISO p) w F_ISO tt w'
    /\ keeps_AF w w'
    /\ (since w w' = [] <-> ControlPayload.ISO p = None).
Proof.
  intros Hwf. destruct w as [s tr]. destruct s. unfold attached in Hwf. simpl in Hwf.
  unfold block_run, control_ISO, keeps_AF, setISO.
  destruct (ControlPayload.ISO p) as [iso|];
    [destruct dummy; [|destruct dev as [d|]; [|exfalso; destruct Hwf; congruence]]|].
  all: go_unfold; repeat (destruct_match; go_unfold).
  all: eexists; (split; [block_done|]); since_norm;
    repeat split; intros; try discriminate; try congruence.
Qed.

Lemma control_FN_run (p : ControlPayload.t) (w : World.t) :
  attached (World.srv w) ->
  exists w',
    block_run (control_FN p) w F_FN tt w'
    /\ keeps_AF w w'
    /\ (since w w' = [] <-> ControlPayload.FN p = None).
Proof.
  intros Hwf. destruct w as [s tr]. destruct s. unfold attached in Hwf. simpl in Hwf.
  unfold block_run, control_FN, keeps_AF, setFN.
  destruct (ControlPayload.FN p) as [fn|];
    [destruct dummy; [|destruct dev as [d|]; [|exfalso; destruct Hwf; congruence]]|].
  all: go_unfold; repeat (destruct_match; go_unfold).
  all: eexists; (split; [block_done|]); since_norm;
    repeat split; intros; try discriminate; try congruence.
Qed.

Lemma attached_same (s s' : LVServer.t) :
  LVServer.dummy s' = LVServer.dummy s -> LVServer.dev s' = LVServer.dev s ->
  attached s -> attached s'.
Proof. unfold attached. intros -> ->. tauto. Qed.

(** C4: the events of one control message are those of the AF interval
    field, then of AF-focus-now, of the rate limit, of ISO and of the
    f-number, in this order, a field adding events exactly when it is
    present (focus-now: when true); an AF interval <= 0 only stops the
    ticker and the rest of the message is skipped; a positive one starts
    the ticker, stores the value and sets the interval. *)
Theorem HandleControl_field_order (w : World.t) (p : ControlPayload.t) :
  attached (World.srv w) ->
  let w' := snd (HandleControl_message pkg p w) in
  fst (HandleControl_message pkg p w) = Ret tt
  /\ (exists eAF eFocus eLR eISO eFN,
       since w w' = eAF ++ eFocus ++ eLR ++ eISO ++ eFN
       /\ Forall (belongs F_AFInterval) eAF
       /\ Forall (belongs F_AFFocusNow) eFocus
       /\ Forall (belongs F_LRFPS) eLR
       /\ Forall (belongs F_ISO) eISO
       /\ Forall (belongs F_FN) eFN
       /\ (eAF = [] <-> ControlPayload.AFInterval p = None)
       /\ (stops_AF p = true -> eFocus = [] /\ eLR = [] /\ eISO = [] /\ eFN = [])
       /\ (stops_AF p = false ->
           (eFocus = [] <-> ControlPayload.AFFocusNow p <> Some true)
           /\ (eLR = [] <-> ControlPayload.LRFPS p = None)
           /\ (eISO = [] <-> ControlPayload.ISO p = None)
           /\ (eFN = [] <-> ControlPayload.FN p = None))
       /\ (forall af, ControlPayload.AFInterval p = Some af -> 0 < af ->
           eAF = [EvLock infoLock; EvUnlock infoLock;
                  EvLog LvDebug "HandleControl: enable AF" [];
                  EvTickerStart; EvStoreAFInterval af; EvTickerSetInterval (seconds af);
                  EvLog LvDebug "HandleControl: set AF interval: %d" [ArgInt af]]))
  /\ (forall af, ControlPayload.AFInterval p = Some af -> af <= 0 ->
      since w w' = [EvLock infoLock; EvUnlock infoLock;
                    EvLog LvDebug "HandleControl: disable AF" []; EvTickerStop]
      /\ World.srv w' = set_info (info_set_AF af (LVServer.info (World.srv w))) (World.srv w))
  /\ (forall af, ControlPayload.AFInterval p = Some af -> 0 < af ->
      LVServer.afInterval (World.srv w') = af
      /\ InfoPayload.AF (LVServer.info (World.srv w')) = af).
Proof.
  intros Hwf w'. subst w'.
  rewrite HandleControl_message_blocks. unfold bind.
  destruct (control_AFInterval_run p w)
    as (go & w1 & (Hrun1 & Hg1 & HF1 & Hd1 & Hdev1) & Hgo & Hnil1 & Hstop & Hpos).
  rewrite Hrun1. subst go.
  assert (Hstops : forall af, ControlPayload.AFInterval p = Some af ->
                     (stops_AF p = true <-> af <= 0)).
  { intros af Haf. unfold stops_AF. rewrite Haf.
    destruct (Z.ltb_spec 0 af); simpl; split; intros; try discriminate; try lia; reflexivity. }
  destruct (stops_AF p) eqn:Estop; cbn [negb ret fst snd].
  - (* the early-out *)
    split; [reflexivity|]. split; [|split].
    + exists (since w w1), [], [], [], []. rewrite !app_nil_r.
      repeat split; try assumption; try apply Forall_nil; try apply Hnil1;
        intros; try discriminate.
      exfalso. apply (Hstops af) in H. destruct H as [H _]. specialize (H eq_refl). lia.
    + intros af Haf Hle. exact (Hstop af Haf Hle).
    + intros af Haf Hlt. exfalso.
      apply (Hstops af) in Haf. destruct Haf as [H _]. specialize (H eq_refl). lia.
  - (* the other four fields in turn *)
    assert (Hwf1 : attached (World.srv w1)) by (eapply attached_same; eassumption).
    destruct (control_AFFocusNow_run p w1)
      as (w2 & (Hrun2 & Hg2 & HF2 & Hd2 & Hdev2) & [Hk2a Hk2b] & Hnil2).
    assert (Hwf2 : attached (World.srv w2)) by (eapply attached_same; eassumption).
    destruct (control_LRFPS_run p w2)
      as (w3 & (Hrun3 & Hg3 & HF3 & Hd3 & Hdev3) & [Hk3a Hk3b] & Hnil3).
    assert (Hwf3 : attached (World.srv w3)) by (eapply attached_same; eassumption).
    destruct (control_ISO_run p w3 Hwf3)
      as (w4 & (Hrun4 & Hg4 & HF4 & Hd4 & Hdev4) & [Hk4a Hk4b] & Hnil4).
    assert (Hwf4 : attached (World.srv w4)) by (eapply attached_same; eassumption).
    destruct (control_FN_run p w4 Hwf4)
      as (w5 & (Hrun5 & Hg5 & HF5 & Hd5 & Hdev5) & [Hk5a Hk5b] & Hnil5).
    rewrite Hrun2, Hrun3, Hrun4, Hrun5. cbn [fst snd].
    destruct (grows_trans w3 w4 w5 Hg4 Hg5) as [Hg35 Hs35].
    destruct (grows_trans w2 w3 w5 Hg3 Hg35) as [Hg25 Hs25].
    destruct (grows_trans w1 w2 w5 Hg2 Hg25) as [Hg15 Hs15].
    destruct (grows_trans w w1 w5 Hg1 Hg15) as [Hg05 Hs05].
    split; [reflexivity|]. split; [|split].
    + exists (since w w1), (since w1 w2), (since w2 w3), (since w3 w4), (since w4 w5).
      rewrite Hs05, Hs15, Hs25, Hs35.
      repeat split; try assumption; try apply Hnil1; try apply Hnil2; try apply Hnil3;
        try apply Hnil4; try apply Hnil5; intros; try discriminate.
      exact (proj1 (Hpos af H H0)).
    + intros af Haf Hle. exfalso.
      apply (Hstops af) in Haf. destruct Haf as [_ H]. specialize (H Hle). discriminate.
    + intros af Haf Hlt. destruct (Hpos af Haf Hlt) as (_ & Ha & Hb).
      split; congruence.
Qed.

(** *** Dummy mode (C8) *)

(** C8 fails on the code: constructed without a device the server is a
    dummy, yet Run calls s.dev.ID() before any dummy check, which panics on
    the nil interface; only the deferred endLiveView runs (it takes and
    releases mtpLock and, being a dummy, calls nothing), and no worker is
    started. *)
Theorem Run_without_device_panics (waited : option error) (maxResolution : bool) :
  let s := NewLVServer None maxResolution in
  LVServer.dummy s = true
  /\ fst (Run pkg waited (world_of s)) =
       Panic "invalid memory address or nil pointer dereference"
  /\ since (world_of s) (snd (Run pkg waited (world_of s))) =
       [EvLock mtpLock; EvUnlock mtpLock].
Proof. repeat split. Qed.

(** *** Lock order (C9) *)

(* mtpLock -> streamLock / motionLock -> controlLock -> frameLock -> infoLock *)
Definition lock_rank (m : Mutex) : nat :=
  match m with
  | mtpLock => 0
  | streamLock => 1
  | motionLock => 1
  | controlLock => 2
  | frameLock => 3
  | infoLock => 4
  end.

Definition mutex_eqb (a b : Mutex) : bool :=
  match a, b with
  | mtpLock, mtpLock | streamLock, streamLock | motionLock, motionLock
  | controlLock, controlLock | frameLock, frameLock | infoLock, infoLock => true
  | _, _ => false
  end.

(* The pairs (held, acquired) of a run in which a lock is acquired while
   one that comes later in the order is held. *)
Fixpoint inversions (held : list Mutex) (evs : list Event) : list (Mutex * Mutex) :=
  match evs with
  | [] => []
  | EvLock m :: evs' =>
      map (fun h => (h, m)) (filter (fun h => (lock_rank m <? lock_rank h)%nat) held)
      ++ inversions (m :: held) evs'
  | EvUnlock m :: evs' =>
      inversions (filter (fun h => negb (mutex_eqb h m)) held) evs'
  | _ :: evs' => inversions held evs'
  end.

Lemma inversions_app (held : list Mutex) (a b : list Event) (x : Mutex * Mutex) :
  In x (inversions held a) -> In x (inversions held (a ++ b)).
Proof.
  revert held. induction a as [|e a IH]; intros held H; [destruct H|].
  destruct e; simpl in *; try (apply IH; exact H).
  apply in_app_iff. apply in_app_iff in H. destruct H as [H|H]; [left; exact H|].
  right. apply IH. exact H.
Qed.

(* A range loop over writes leaves the server record alone. *)
Lemma range_write_grows (body : Conn -> M unit) (cs : list Conn) :
  (forall c w, exists evs,
      body c w = (Ret tt, World.mk (World.srv w) (evs ++ World.trace w))) ->
  forall w, exists evs,
    range cs body w = (Ret tt, World.mk (World.srv w) (evs ++ World.trace w)).
Proof.
  intros Hbody. induction cs as [|c cs IH]; intros w.
  - exists []. destruct w. reflexivity.
  - destruct (Hbody c w) as [e1 H1]. simpl. unfold bind. rewrite H1.
    destruct (IH (World.mk (World.srv w) (e1 ++ World.trace w))) as [e2 H2].
    rewrite H2. exists (e2 ++ e1). simpl. now rewrite app_assoc.
Qed.

Variable WriteMessage : Conn -> Message -> option error.

Lemma write_logged_grows (c : Conn) (m : Message) (onError : string) (w : World.t) :
  exists evs,
    write_logged pkg WriteMessage c m onError w =
      (Ret tt, World.mk (World.srv w) (evs ++ World.trace w)).
Proof.
  destruct w as [s tr]. unfold write_logged. go_unfold.
  destruct (WriteMessage c m); go_unfold;
    first [ eexists [_]; reflexivity | eexists [_; _]; reflexivity ].
Qed.

(** C9 fails on the code: the info broadcaster takes controlLock, then
    infoLock, and calls copyFrame, which takes frameLock while infoLock is
    still held, against the order frameLock -> infoLock that the captor's
    set follows (frameLock first, then infoLock). *)
Theorem workerBroadcastInfo_inverts_lock_order (rate : Z) (w : World.t) :
  (exists rest,
     since w (snd (workerBroadcastInfo_broadcast pkg WriteMessage rate w)) =
       [EvLock controlLock; EvLock infoLock; EvLock frameLock; EvUnlock frameLock] ++ rest)
  /\ In (infoLock, frameLock)
        (inversions [] (since w (snd (workerBroadcastInfo_broadcast pkg WriteMessage rate w))))
  /\ (forall lv iso fn,
        since w (snd (frameCaptorSakura_set lv iso fn w)) =
          [EvLock frameLock; EvLock infoLock; EvTrySendNewFrame;
           EvUnlock infoLock; EvUnlock frameLock]
        /\ inversions [] (since w (snd (frameCaptorSakura_set lv iso fn w))) = []).
Proof.
  destruct w as [s tr]. destruct s.
  assert (Hshape : exists rest,
    since (World.mk (LVServer.mk Frame newFrameChan info streamClients controlClients
                       motionClients model dev dummy maxResolution afInterval lrFPS) tr)
          (snd (workerBroadcastInfo_broadcast pkg WriteMessage rate
                  (World.mk (LVServer.mk Frame newFrameChan info streamClients controlClients
                       motionClients model dev dummy maxResolution afInterval lrFPS) tr))) =
      [EvLock controlLock; EvLock infoLock; EvLock frameLock; EvUnlock frameLock] ++ rest).
  { unfold workerBroadcastInfo_broadcast, copyFrame. go_unfold.
    match goal with
    | |- context [range ?cs ?body ?W] =>
        let H := fresh in
        assert (H : forall c w, exists evs,
                   body c w = (Ret tt, World.mk (World.srv w) (evs ++ World.trace w)));
        [ intros c w0; cbv beta; unfold bind, get;
          apply write_logged_grows
        | destruct (range_write_grows body cs H W) as [evs Hr]; rewrite Hr ]
    end.
    go_unfold. since_norm. simpl. rewrite rev_app_distr. simpl.
    rewrite <- !app_assoc. simpl. eexists. reflexivity. }
  split; [exact Hshape|]. split.
  - destruct Hshape as [rest ->]. apply inversions_app. simpl. left. reflexivity.
  - intros lv iso fn. unfold frameCaptorSakura_set. go_unfold. since_norm.
    split; reflexivity.
Qed.

End Properties.

(** ** The claims at concrete inputs *)

(** C7 fails on the code: with maxResolution set and a camera whose
    Resolution descriptor enumerates 5 and then 3, startLiveView writes
    back 3, the last value, not 5, the largest. *)
Theorem changeResolution_picks_last_not_largest :
  let w := world_of (server_with (Some (enum_camera [VUint64 5; VUint64 3])) true generic_model) in
  fst (startLiveView test_pkg w) = Ret None
  /\ devCalls (since w (snd (startLiveView test_pkg w))) =
       [RunTransactionWithNoParams OC_NIKON_DeviceReady;
        GetDevicePropDesc DPC_NIKON_Resolution;
        SetDevicePropValue DPC_NIKON_Resolution (Payload8 3);
        RunTransactionWithNoParams OC_NIKON_StartLiveView]
  /\ fold_right Z.max 0 [5; 3] = 5.
Proof. vm_compute. repeat split. Qed.

(* The sample reply on the generic model: every field at its offset. *)
Lemma getLiveViewImgInner_parses_sample :
  let w := world_of (server_with (Some (image_camera sample_reply)) false generic_model) in
  fst (getLiveViewImgInner test_pkg w) =
    Ret (LiveView.mk 640 480 6000 4000 100 100 3000 2000
           Rotation90 AFSuccess true sample_jpeg, None).
Proof.
  pose proof (getLiveViewImgInner_parses test_pkg
                (world_of (server_with (Some (image_camera sample_reply)) false generic_model))
                (image_camera sample_reply) eq_refl eq_refl
                ltac:(vm_compute; discriminate) ltac:(vm_compute; reflexivity)) as H.
  vm_compute in H. vm_compute. exact H.
Defined.

(* A two-byte reply: nothing is published. *)
Lemma insufficient_length_sample :
  let w := world_of (server_with (Some (image_camera [Byte.xff; Byte.xd8])) false generic_model) in
  fst (frameCaptorSakura_body test_pkg false w) = Ret Continue
  /\ World.srv (snd (frameCaptorSakura_body test_pkg false w)) = World.srv w.
Proof.
  pose proof (insufficient_length_drops_frame test_pkg
                (world_of (server_with (Some (image_camera [Byte.xff; Byte.xd8])) false
                             generic_model))
                (image_camera [Byte.xff; Byte.xd8]) eq_refl eq_refl eq_refl
                ltac:(vm_compute; discriminate)) as H.
  destruct H as (_ & H2 & H3 & _). split; [exact H2|exact H3].
Defined.

(* fn = "5.6" writes 560 between EndLiveView and StartLiveView. *)
Lemma setFN_sequence_sample :
  let w := world_of (server_with (Some ok_camera) false generic_model) in
  devCalls (since w (snd (setFN test_pkg "5.6" w))) =
    [RunTransactionWithNoParams OC_NIKON_EndLiveView;
     SetDevicePropValue DPC_FNumber (Payload16 560);
     RunTransactionWithNoParams OC_NIKON_StartLiveView]
  /\ fst (setFN test_pkg "5.6" w) = Ret None.
Proof.
  pose proof (setFN_sequence test_pkg
                (world_of (server_with (Some ok_camera) false generic_model))
                ok_camera "5.6" (fst (plain_ParseFloat "5.6"))
                eq_refl eq_refl ltac:(vm_compute; reflexivity)) as H.
  vm_compute in H. vm_compute. exact H.
Defined.

(* A message that sets every field, with a camera attached. *)
Lemma HandleControl_field_order_sample :
  let w := world_of (server_with (Some ok_camera) false generic_model) in
  fst (HandleControl_message test_pkg full_message w) = Ret tt
  /\ LVServer.afInterval (World.srv (snd (HandleControl_message test_pkg full_message w))) = 5.
Proof.
  assert (Ha : attached (World.srv (world_of (server_with (Some ok_camera) false generic_model))))
    by (right; discriminate).
  pose proof (HandleControl_field_order test_pkg
                (world_of (server_with (Some ok_camera) false generic_model))
                full_message Ha) as H.
  destruct H as (H1 & _ & _ & H4).
  specialize (H4 5 eq_refl ltac:(vm_compute; reflexivity)).
  exact (conj H1 (proj1 H4)).
Defined.

(* A status read that ends in io.EOF: live view is on. *)
Lemma liveViewStatus_on_sample :
  let w := world_of (server_with (Some (status_camera (Some io_EOF))) false generic_model) in
  fst (getLiveViewStatus test_pkg w) = Ret (true, None).
Proof.
  pose proof (liveViewStatus_on_iff_EOF test_pkg
                (world_of (server_with (Some (status_camera (Some io_EOF))) false generic_model))
                (status_camera (Some io_EOF)) eq_refl eq_refl) as H.
  destruct H as (_ & [_ H] & _). exact (H eq_refl).
Defined.

(* Prohibit bit 8: the battery. *)
Lemma startLiveView_prohibit_condition_sample :
  let w := world_of (server_with (Some (refusing_camera 256)) false generic_model) in
  fst (startLiveView test_pkg w) =
    Ret (Some (errorString "failed to start live view, reason: insufficient battery")).
Proof.
  pose proof (startLiveView_prohibit_condition test_pkg
                (world_of (server_with (Some (refusing_camera 256)) false generic_model))
                (refusing_camera 256) 40964 256
                eq_refl (fun _ => eq_refl) eq_refl (fun _ => eq_refl) (fun _ => eq_refl)
                ltac:(vm_compute; tauto)) as H.
  destruct H as (_ & H & _). vm_compute in H. vm_compute. exact H.
Defined.

(* An empty enumeration: the index panics. *)
Lemma changeResolution_panics_sample :
  let w := world_of (server_with (Some (enum_camera [])) true generic_model) in
  fst (changeResolution test_pkg w) = Panic "index out of range".
Proof.
  pose proof (changeResolution_panics_iff_empty test_pkg
                (world_of (server_with (Some (enum_camera [])) true generic_model))
                (enum_camera []) eq_refl) as H.
  destruct H as (_ & H & _). exact (H (conj eq_refl eq_refl)).
Defined.
